(** * CMT/RPv2 congestion control for MPTCP

    A shallow embedding of [net/mptcp/mptcp_cmtrpv2.c] and the properties
    of its window arithmetic.  Kernel objects reached through pointers
    (sockets, the multipath control block) live in a store indexed by
    address; a NULL pointer is [None], and a dereference of NULL or of an
    address that holds no object makes the call fail ([None]). *)

From Stdlib Require Import ZArith Lia Bool List.
From stdpp Require Import base option gmap list.

Local Open Scope Z_scope.

(** ** Machine integers *)

Module Int.

(** Conversion to an unsigned type of [w] bits. *)
Definition to_unsigned (w : Z) (z : Z) : Z := z mod 2 ^ w.

Definition to_u32 (z : Z) : Z := to_unsigned 32 z.
Definition to_u64 (z : Z) : Z := to_unsigned 64 z.

(** Conversion to [int]: the low 32 bits, read in two's complement. *)
Definition to_s32 (z : Z) : Z :=
  let r := to_u32 z in
  if r <? 2 ^ 31 then r else r - 2 ^ 32.

Definition in_u32 (z : Z) : Prop := 0 <= z < 2 ^ 32.
Definition in_u64 (z : Z) : Prop := 0 <= z < 2 ^ 64.
Definition in_s32 (z : Z) : Prop := - 2 ^ 31 <= z < 2 ^ 31.

(** Modelled from the spec: the macro [DIV_ROUND_UP] comes from the
    kernel headers, which the module includes and does not contain; the
    spec calls it round-up integer division.  It is taken as the kernel
    writes it, [((n) + (d) - 1) / (d)], evaluated in the unsigned type of
    [w] bits that C gives its operands. *)
Definition DIV_ROUND_UP (w : Z) (n d : Z) : Z :=
  to_unsigned w (to_unsigned w (n + d) - 1) / d.

(** Round-up division on unbounded integers. *)
Definition ceil_div (n d : Z) : Z := (n + d - 1) / d.

End Int.

Import Int.

(** ** Module parameters (file-scope statics) *)

Definition rpv2_scale : Z := 32.
Definition dup_acks_rtx : Z := 3.

(** ** Data model *)

(** Address of a socket and of a multipath control block. *)
Definition sock_ptr := nat.
Definition mpcb_ptr := nat.
Bind Scope nat_scope with sock_ptr mpcb_ptr.

(** Modelled from the spec: [struct tcp_sock] is declared in the
    transport's headers, which the module includes and does not contain.
    These are the attributes the spec gives a subflow, under the names the
    module uses, with the kernel's [u32] counters (the module copies them
    into [u32] locals).  [mpc] is what [mptcp(tp)] answers, [sk_can_send]
    and [cwnd_limited] what the transport's helpers
    [mptcp_sk_can_send(sk)] and [tcp_is_cwnd_limited(sk)] answer for this
    socket; [increase] is the module's own [struct mptcp_cmtrpv2], kept in
    the socket's congestion-control private area. *)
Record tcp_sock : Type := mk_tcp_sock {
  snd_cwnd       : Z;                 (* u32 *)
  snd_ssthresh   : Z;                 (* u32 *)
  snd_cwnd_cnt   : Z;                 (* u32 *)
  snd_cwnd_clamp : Z;                 (* u32 *)
  srtt_us        : Z;                 (* u32 *)
  mss_cache      : Z;                 (* u32 *)
  sacked_out     : Z;                 (* u32 *)
  mpc            : bool;              (* mptcp(tp) *)
  mpcb           : option mpcb_ptr;
  meta_sk        : option sock_ptr;
  increase       : Z;                 (* u64 *)
  sk_can_send    : bool;
  cwnd_limited   : bool
}.

Definition set_snd_cwnd (v : Z) (tp : tcp_sock) : tcp_sock :=
  mk_tcp_sock v (snd_ssthresh tp) (snd_cwnd_cnt tp) (snd_cwnd_clamp tp)
    (srtt_us tp) (mss_cache tp) (sacked_out tp) (mpc tp) (mpcb tp)
    (meta_sk tp) (increase tp) (sk_can_send tp) (cwnd_limited tp).

Definition set_snd_cwnd_cnt (v : Z) (tp : tcp_sock) : tcp_sock :=
  mk_tcp_sock (snd_cwnd tp) (snd_ssthresh tp) v (snd_cwnd_clamp tp)
    (srtt_us tp) (mss_cache tp) (sacked_out tp) (mpc tp) (mpcb tp)
    (meta_sk tp) (increase tp) (sk_can_send tp) (cwnd_limited tp).

Definition set_increase (v : Z) (tp : tcp_sock) : tcp_sock :=
  mk_tcp_sock (snd_cwnd tp) (snd_ssthresh tp) (snd_cwnd_cnt tp)
    (snd_cwnd_clamp tp) (srtt_us tp) (mss_cache tp) (sacked_out tp) (mpc tp)
    (mpcb tp) (meta_sk tp) v (sk_can_send tp) (cwnd_limited tp).

(** The whole machine: the file-scope [static int snd_buffer], every
    socket, and for every control block its [connection_list], the
    subflow sockets [mptcp_for_each_sk] walks. *)
Record world : Type := mk_world {
  snd_buffer : Z;                     (* int *)
  socks      : gmap sock_ptr tcp_sock;
  mpcbs      : gmap mpcb_ptr (list sock_ptr)
}.

Definition set_snd_buffer (v : Z) (w : world) : world :=
  mk_world v (socks w) (mpcbs w).

Definition store_sock (sk : sock_ptr) (tp : tcp_sock) (w : world) : world :=
  mk_world (snd_buffer w) (<[sk := tp]> (socks w)) (mpcbs w).

Definition tcp_sk (w : world) (sk : sock_ptr) : option tcp_sock :=
  socks w !! sk.

(** The single-path algorithm of the transport stack, which the module
    calls and does not define. *)
Class tcp_stack : Type := {
  tcp_reno_ssthresh   : tcp_sock -> Z;
  tcp_reno_cong_avoid : tcp_sock -> Z -> Z -> tcp_sock
}.

(** ** A state-and-failure monad for kernel code *)

Module KM.

Definition M (A : Type) : Type := world -> option (A * world).

Definition ret {A} (a : A) : M A := fun w => Some (a, w).

Definition bind {A B} (m : M A) (k : A -> M B) : M B :=
  fun w => match m w with
           | Some (a, w') => k a w'
           | None => None
           end.

(** A faulting access (NULL or dangling pointer). *)
Definition fault {A} : M A := fun _ => None.

Definition deref {A} (p : option A) : M A :=
  match p with Some a => ret a | None => fault end.

(** [tcp_sk(sk)->...]: read the socket at [sk]. *)
Definition load (sk : sock_ptr) : M tcp_sock :=
  fun w => match tcp_sk w sk with
           | Some tp => Some (tp, w)
           | None => None
           end.

(** Apply a field update to the socket at [sk]. *)
Definition modify (sk : sock_ptr) (f : tcp_sock -> tcp_sock) : M unit :=
  fun w => match tcp_sk w sk with
           | Some tp => Some (tt, store_sock sk (f tp) w)
           | None => None
           end.

Definition subflows (cb : mpcb_ptr) : M (list sock_ptr) :=
  fun w => match mpcbs w !! cb with
           | Some l => Some (l, w)
           | None => None
           end.

Definition read_snd_buffer : M Z := fun w => Some (snd_buffer w, w).

Definition write_snd_buffer (v : Z) : M unit :=
  fun w => Some (tt, set_snd_buffer v w).

End KM.

Import KM.

Notation "x <- m ;; k" := (bind m (fun x => k))
  (at level 90, m at level 89, right associativity).
Notation "m ;;; k" := (bind m (fun _ => k))
  (at level 90, right associativity).

Section Cmtrpv2.

Context {stack : tcp_stack}.

(** ** The module's functions, in source order *)

Definition mptcp_cmtrpv2_sk_can_send (tp : tcp_sock) : bool :=
  sk_can_send tp && negb (srtt_us tp =? 0).

Definition mptcp_cmtrpv2_scale (val scale : Z) : Z :=
  to_u64 (Z.shiftl val scale).

Definition mptcp_set_increase_ratio (meta : sock_ptr) (inc : Z) : M unit :=
  modify meta (set_increase inc).

Definition mptcp_get_increase_ratio (meta : sock_ptr) : M Z :=
  tp <- load meta ;; ret (increase tp).

(** The [mptcp_for_each_sk] loop of both calculators: adds the bandwidth
    of every subflow that can send to [total_bandwidth]. *)
Fixpoint sum_bandwidth (subs : list sock_ptr) (total_bandwidth : Z)
  : M Z :=
  match subs with
  | [] => ret total_bandwidth
  | sub_sk :: rest =>
      sub_tp <- load sub_sk ;;
      if mptcp_cmtrpv2_sk_can_send sub_tp
      then sum_bandwidth rest
             (to_u64 (total_bandwidth
                      + mptcp_cmtrpv2_scale (snd_cwnd sub_tp) rpv2_scale
                        / srtt_us sub_tp))
      else sum_bandwidth rest total_bandwidth
  end.

(** Lines 75-80: the ratio computed from the socket [tp] handed to the
    calculator, the reward [factor] and the summed bandwidth. *)
Definition increase_of (tp : tcp_sock) (factor total_bandwidth : Z) : Z :=
  let denominator :=
    Z.shiftr (to_u64 (srtt_us tp * total_bandwidth)) rpv2_scale in
  let denominator := if denominator =? 0 then 1 else denominator in
  DIV_ROUND_UP 64 (to_u32 (snd_cwnd tp * factor)) denominator.

Definition mptcp_cmtrpv2_calc_increase_ratio (sk : sock_ptr) (factor : Z)
  : M unit :=
  tp <- load sk ;;
  match mpcb tp with
  | None => ret tt
  | Some cb =>
      if factor =? 0 then ret tt
      else
        subs <- subflows cb ;;
        total_bandwidth <- sum_bandwidth subs 0 ;;
        meta <- deref (meta_sk tp) ;;
        mptcp_set_increase_ratio meta (increase_of tp factor total_bandwidth)
  end.

(** Lines 107-116: the threshold computed from the summed bandwidth. *)
Definition new_ssthresh_of (tp : tcp_sock) (total_bandwidth : Z) : Z :=
  let decrease :=
    DIV_ROUND_UP 64
      (Z.shiftr (to_u64 (total_bandwidth * srtt_us tp)) rpv2_scale) 2 in
  let decrease :=
    if decrease <? DIV_ROUND_UP 32 (snd_cwnd tp) 2
    then DIV_ROUND_UP 32 (snd_cwnd tp) 2 else decrease in
  if decrease <? snd_cwnd tp
  then to_u32 (snd_cwnd tp - decrease)
  else 1.

Definition mptcp_cmtrpv2_calc_ssthresh (sk : sock_ptr) : M Z :=
  tp <- load sk ;;
  match mpcb tp with
  | None => ret (tcp_reno_ssthresh tp)
  | Some cb =>
      subs <- subflows cb ;;
      total_bandwidth <- sum_bandwidth subs 0 ;;
      ret (new_ssthresh_of tp total_bandwidth)
  end.

(** [enum tcp_ca_event], as far as the module looks at it. *)
Inductive tcp_ca_event : Type := CA_EVENT_LOSS | CA_EVENT_OTHER.

Definition mptcp_cmtrpv2_cwnd_event (sk : sock_ptr) (event : tcp_ca_event)
  : M unit :=
  match event with
  | CA_EVENT_LOSS => modify sk (set_snd_cwnd 1)
  | CA_EVENT_OTHER => ret tt
  end.

Definition mptcp_cmtrpv2_set_state (sk : sock_ptr) (ca_state : Z) : M unit :=
  tp <- load sk ;;
  if negb (mpc tp) then ret tt else ret tt.

(** [snd_buffer += increase]: the [int] is converted to [u64], the sum
    taken there and converted back to [int]. *)
Definition buffer_add (buf inc : Z) : Z :=
  to_s32 (to_u64 (to_u64 buf + inc)).

(** [snd_buffer -= tp->mss_cache]: the difference is taken in
    [unsigned int] and converted back to [int]. *)
Definition buffer_sub (buf mss : Z) : Z :=
  to_s32 (to_u32 (to_u32 buf - mss)).

(** [snd_buffer >= tp->mss_cache]: the [int] is converted to
    [unsigned int] for the comparison. *)
Definition buffer_reaches (buf mss : Z) : bool := mss <=? to_u32 buf.

Definition mptcp_cmtrpv2_slow_start (sk : sock_ptr) (acked : Z) : M Z :=
  tp <- load sk ;;
  let cwnd := to_u32 (snd_cwnd tp + acked) in
  let cwnd := if snd_ssthresh tp <? cwnd
              then to_u32 (snd_ssthresh tp + 1) else cwnd in
  meta <- deref (meta_sk tp) ;;
  mptcp_cmtrpv2_calc_increase_ratio meta
    (Z.min (to_u32 (acked * mss_cache tp)) (mss_cache tp)) ;;;
  inc <- mptcp_get_increase_ratio meta ;;
  let acked := to_u32 (acked - to_u32 (cwnd - snd_cwnd tp)) in
  buf <- read_snd_buffer ;;
  write_snd_buffer (buffer_add buf inc) ;;;
  buf <- read_snd_buffer ;;
  (if buffer_reaches buf (mss_cache tp)
   then
     modify sk (fun t => set_snd_cwnd (to_u32 (snd_cwnd t + 1)) t) ;;;
     write_snd_buffer (buffer_sub buf (mss_cache tp))
   else ret tt) ;;;
  ret acked.

Definition mptcp_cmtrpv2_cong_avoid (sk : sock_ptr) (ack acked : Z)
  : M unit :=
  tp <- load sk ;;
  if negb (mpc tp)
  then modify sk (fun t => tcp_reno_cong_avoid t ack acked)
  else if negb (cwnd_limited tp) then ret tt
  else if snd_cwnd tp <=? snd_ssthresh tp
  then mptcp_cmtrpv2_slow_start sk acked ;;; ret tt
  else
    mptcp_cmtrpv2_calc_increase_ratio sk (mss_cache tp) ;;;
    meta <- deref (meta_sk tp) ;;
    inc <- mptcp_get_increase_ratio meta ;;
    buf <- read_snd_buffer ;;
    write_snd_buffer (buffer_add buf inc) ;;;
    buf <- read_snd_buffer ;;
    tp <- load sk ;;
    if snd_cwnd tp <=? snd_cwnd_cnt tp
    then
      if buffer_reaches buf (mss_cache tp)
      then
        (if snd_cwnd tp <? snd_cwnd_clamp tp
         then modify sk (fun t => set_snd_cwnd (to_u32 (snd_cwnd t + 1)) t)
         else ret tt) ;;;
        write_snd_buffer (buffer_sub buf (mss_cache tp)) ;;;
        modify sk (set_snd_cwnd_cnt 0)
      else ret tt
    else modify sk (fun t => set_snd_cwnd_cnt (to_u32 (snd_cwnd_cnt t + 1)) t).

Definition mptcp_cmtrpv2_fast_rtx (sk : sock_ptr) (ssthresh : Z) : M unit :=
  tp <- load sk ;;
  if to_u32 dup_acks_rtx <=? sacked_out tp
  then modify sk (set_snd_cwnd ssthresh)
  else ret tt.

Definition mptcp_cmtrpv2_ssthresh (sk : sock_ptr) : M Z :=
  tp <- load sk ;;
  if negb (mpc tp)
  then ret (tcp_reno_ssthresh tp)
  else
    ssthresh <- mptcp_cmtrpv2_calc_ssthresh sk ;;
    mptcp_cmtrpv2_fast_rtx sk ssthresh ;;;
    ret ssthresh.

End Cmtrpv2.

(** ** A single-path algorithm to run the module with *)

(** Modelled from the spec: the conventional single-path algorithm the
    module defers to ([tcp_reno_ssthresh], [tcp_reno_cong_avoid]) belongs to
    the transport stack and is missing from the module's file.  The spec
    names it only as the conventional algorithm; this instance is the
    textbook rule (halve the window, never below two segments; one segment
    per ACK below the threshold, one per window above it, within the
    clamp), so that the module can be evaluated on concrete machines.  No
    theorem about multipath sockets depends on it. *)
#[export] Instance textbook_reno : tcp_stack := {|
  tcp_reno_ssthresh := fun tp => Z.max (Z.shiftr (snd_cwnd tp) 1) 2;
  tcp_reno_cong_avoid := fun tp _ acked =>
    if negb (cwnd_limited tp) then tp
    else if snd_cwnd tp <=? snd_ssthresh tp
    then set_snd_cwnd
           (Z.min (Z.min (to_u32 (snd_cwnd tp + acked))
                         (to_u32 (snd_ssthresh tp + 1)))
                  (snd_cwnd_clamp tp)) tp
    else if snd_cwnd tp <=? snd_cwnd_cnt tp
    then set_snd_cwnd_cnt 0
           (if snd_cwnd tp <? snd_cwnd_clamp tp
            then set_snd_cwnd (to_u32 (snd_cwnd tp + 1)) tp else tp)
    else set_snd_cwnd_cnt (to_u32 (snd_cwnd_cnt tp + 1)) tp
|}.

(** ** Concrete machines *)

Module Examples.

(** A plain TCP socket: not in multipath mode, no control block. *)
Definition plain (cwnd ssthresh : Z) : tcp_sock :=
  mk_tcp_sock cwnd ssthresh 0 4294967295 800 1460 0 false None None 0
    true true.

(** A subflow of the connection whose control block is [cb] and whose
    meta socket is [meta]. *)
Definition subflow (cb : mpcb_ptr) (meta : sock_ptr)
    (cwnd ssthresh srtt : Z) : tcp_sock :=
  mk_tcp_sock cwnd ssthresh 0 4294967295 srtt 1460 0 true
    (Some cb) (Some meta) 0 true true.

(** The same socket when the transport reports it not window-limited. *)
Definition idle (tp : tcp_sock) : tcp_sock :=
  mk_tcp_sock (snd_cwnd tp) (snd_ssthresh tp) (snd_cwnd_cnt tp)
    (snd_cwnd_clamp tp) (srtt_us tp) (mss_cache tp) (sacked_out tp)
    (mpc tp) (mpcb tp) (meta_sk tp) (increase tp) (sk_can_send tp) false.

(** The same socket with [n] segments selectively acknowledged. *)
Definition sacked (n : Z) (tp : tcp_sock) : tcp_sock :=
  mk_tcp_sock (snd_cwnd tp) (snd_ssthresh tp) (snd_cwnd_cnt tp)
    (snd_cwnd_clamp tp) (srtt_us tp) (mss_cache tp) n
    (mpc tp) (mpcb tp) (meta_sk tp) (increase tp) (sk_can_send tp)
    (cwnd_limited tp).

(** The same socket with window clamp [n]. *)
Definition clamped (n : Z) (tp : tcp_sock) : tcp_sock :=
  mk_tcp_sock (snd_cwnd tp) (snd_ssthresh tp) (snd_cwnd_cnt tp)
    n (srtt_us tp) (mss_cache tp) (sacked_out tp)
    (mpc tp) (mpcb tp) (meta_sk tp) (increase tp) (sk_can_send tp)
    (cwnd_limited tp).

(** One connection: control block 0, meta socket 0 holding [m],
    subflows 1 and 2 holding [s1] and [s2]; the accumulator is [buf]. *)
Definition one_conn (buf : Z) (m s1 s2 : tcp_sock) : world :=
  mk_world buf
    (<[0%nat := m]> (<[1%nat := s1]> (<[2%nat := s2]> ∅)))
    (<[0%nat := [1%nat; 2%nat]]> ∅).

(** Two connections: the first as in [one_conn]; the second with
    control block 1, meta socket 10 and the single subflow 11. *)
Definition two_conns (buf : Z) (m s1 s2 m' s' : tcp_sock) : world :=
  mk_world buf
    (<[0%nat := m]> (<[1%nat := s1]> (<[2%nat := s2]>
       (<[10%nat := m']> (<[11%nat := s']> ∅)))))
    (<[0%nat := [1%nat; 2%nat]]> (<[1%nat := [11%nat]]> ∅)).

(** Final window of socket [sk] after running [m]. *)
Definition cwnd_after {A} (m : M A) (sk : sock_ptr) (w : world)
  : option Z :=
  match m w with
  | Some (_, w') => option_map snd_cwnd (tcp_sk w' sk)
  | None => None
  end.

(** Accumulator after running [m]. *)
Definition buffer_after {A} (m : M A) (w : world) : option Z :=
  match m w with
  | Some (_, w') => Some (snd_buffer w')
  | None => None
  end.


End Examples.

(** ** Well-formed connections *)

(** Every address of the list holds a socket. *)
Definition subflows_mapped (w : world) (subs : list sock_ptr) : bool :=
  forallb (fun s => match tcp_sk w s with Some _ => true | None => false end)
          subs.

(** [sk] is a subflow in multipath mode: it and its meta socket [meta]
    point to one control block, the meta socket is its own meta socket,
    and the block's connection list [subs] holds sockets only. *)
Record mp_subflow (w : world) (sk : sock_ptr) (tp : tcp_sock)
    (meta : sock_ptr) (mtp : tcp_sock) (subs : list sock_ptr) : Prop := {
  mp_sock   : tcp_sk w sk = Some tp;
  mp_mpc    : mpc tp = true;
  mp_meta   : meta_sk tp = Some meta;
  mp_msock  : tcp_sk w meta = Some mtp;
  mp_mmeta  : meta_sk mtp = Some meta;
  mp_cb     : exists cb, mpcb tp = Some cb /\ mpcb mtp = Some cb
                         /\ mpcbs w !! cb = Some subs;
  mp_mapped : subflows_mapped w subs = true
}.

(** Values of the C types. *)
Record sock_in_range (tp : tcp_sock) : Prop := {
  rg_cwnd  : in_u32 (snd_cwnd tp);
  rg_ssth  : in_u32 (snd_ssthresh tp);
  rg_cnt   : in_u32 (snd_cwnd_cnt tp);
  rg_clamp : in_u32 (snd_cwnd_clamp tp);
  rg_srtt  : in_u32 (srtt_us tp);
  rg_mss   : in_u32 (mss_cache tp);
  rg_sack  : in_u32 (sacked_out tp);
  rg_inc   : in_u64 (increase tp)
}.

(** ** Quantities the properties speak about *)

(** The ratio a growth call adds to the accumulator: the one just stored
    by the calculator, or, with a zero factor, the one left in the meta
    socket by an earlier call. *)
Definition ratio_used (stored : Z) (tp : tcp_sock) (factor tb : Z) : Z :=
  if factor =? 0 then stored else increase_of tp factor tb.

(** The machine after the calculator ran on socket [sk]. *)
Definition ratio_stored (w : world) (meta : sock_ptr) (mtp tp : tcp_sock)
    (factor tb : Z) : world :=
  if factor =? 0 then w
  else store_sock meta (set_increase (increase_of tp factor tb) mtp) w.

(** The reward factor of a slow-start call. *)
Definition slow_start_factor (tp : tcp_sock) (acked : Z) : Z :=
  Z.min (to_u32 (acked * mss_cache tp)) (mss_cache tp).

(** The loss response in the words of the spec (4.5), on unbounded
    integers: [decrease] is half the pooled window of this path, rounded
    up, and at least half the window, rounded up; the threshold is
    [cwnd - decrease] if that is at least 1 and 1 otherwise. *)
Definition spec_new_ssthresh (cwnd srtt total_bandwidth : Z) : Z :=
  let decrease :=
    Z.max (ceil_div (Z.shiftr (total_bandwidth * srtt) rpv2_scale) 2)
          (ceil_div cwnd 2) in
  if 1 <=? cwnd - decrease then cwnd - decrease else 1.

(** The growth ratio in the words of the spec (4.2), on unbounded
    integers: [ceil(cwnd * F / denominator)] with
    [denominator = (srtt * total_bandwidth) >> SCALE], or 1 if that is
    0. *)
Definition spec_increase (cwnd srtt F total_bandwidth : Z) : Z :=
  let denominator := Z.shiftr (srtt * total_bandwidth) rpv2_scale in
  let denominator := if denominator =? 0 then 1 else denominator in
  ceil_div (cwnd * F) denominator.

(** Number of subflows of the list that can send and have a round-trip
    time: the subflows that enter the bandwidth sum. *)
Definition eligible_count (w : world) (subs : list sock_ptr) : nat :=
  length (List.filter
            (fun s => match tcp_sk w s with
                      | Some t => mptcp_cmtrpv2_sk_can_send t
                      | None => false
                      end) subs).

(** Code that leaves every socket's stored ratio as it found it. *)
Definition ratio_frame {A} (m : M A) : Prop :=
  forall w a w', m w = Some (a, w') ->
    forall p, option_map increase (tcp_sk w' p)
              = option_map increase (tcp_sk w p).

(** The claim about one slow-start call, for a condition [guard] on the
    accumulator after the addition. *)
Definition one_segment_claim (guard : Z -> Prop) : Prop :=
  forall w sk tp meta mtp subs tb acked,
    mp_subflow w sk tp meta mtp subs ->
    sum_bandwidth subs 0 w = Some (tb, w) ->
    sock_in_range tp ->
    let inc :=
      ratio_used (increase mtp) mtp (slow_start_factor tp acked) tb in
    let acc := buffer_add (snd_buffer w) inc in
    guard acc ->
    exists r w' tp',
      mptcp_cmtrpv2_slow_start sk acked w = Some (r, w')
      /\ tcp_sk w' sk = Some tp'
      /\ if mss_cache tp <=? acc
         then snd_cwnd tp' = snd_cwnd tp + 1
              /\ snd_buffer w' = acc - mss_cache tp
         else snd_cwnd tp' = snd_cwnd tp /\ snd_buffer w' = acc.

(** The claim about the ratio, for a choice of the window that enters the
    formula ([pick_cwnd], told whether the call is a slow-start call, the
    calling subflow and the meta socket) and a condition on
    [cwnd * F]. *)
Definition ratio_claim (pick_cwnd : bool -> tcp_sock -> tcp_sock -> Z)
    (guard : Z -> Prop) : Prop :=
  forall w sk tp meta mtp subs tb ack acked,
    mp_subflow w sk tp meta mtp subs ->
    sum_bandwidth subs 0 w = Some (tb, w) ->
    cwnd_limited tp = true ->
    let slow := snd_cwnd tp <=? snd_ssthresh tp in
    let src := if slow then mtp else tp in
    let F := if slow then slow_start_factor tp acked else mss_cache tp in
    F <> 0 ->
    guard (pick_cwnd slow tp mtp * F) ->
    exists w',
      mptcp_cmtrpv2_cong_avoid sk ack acked w = Some (tt, w')
      /\ option_map increase (tcp_sk w' meta)
         = Some (spec_increase (pick_cwnd slow tp mtp) (srtt_us src) F tb).

(** The bandwidth estimate of one subflow on unbounded integers: the
    window scaled by [2^32] over the round-trip time for a socket that can
    send and has a round-trip time, nothing for any other. *)
Definition bandwidth_estimate (tp : tcp_sock) : Z :=
  if sk_can_send tp && negb (srtt_us tp =? 0)
  then snd_cwnd tp * 2 ^ 32 / srtt_us tp
  else 0.

(** The estimates of the sockets of a connection list, added up. *)
Definition pooled_bandwidth (w : world) (subs : list sock_ptr) : Z :=
  fold_right
    (fun s acc => match tcp_sk w s with
                  | Some tp => bandwidth_estimate tp + acc
                  | None => acc
                  end) 0 subs.

(** Every address of the list holds a socket whose fields are values of
    their C types. *)
Definition subflows_in_range (w : world) (subs : list sock_ptr) : Prop :=
  Forall (fun s => exists tp, tcp_sk w s = Some tp /\ sock_in_range tp) subs.

(** No socket of the list enters the bandwidth sum. *)
Definition none_eligible (w : world) (subs : list sock_ptr) : Prop :=
  Forall (fun s => exists tp, tcp_sk w s = Some tp
                              /\ mptcp_cmtrpv2_sk_can_send tp = false) subs.

(** Code that, when it returns, returns [v]. *)
Definition yields {A} (v : A) (m : M A) : Prop :=
  forall w a w', m w = Some (a, w') -> a = v.

(** The part of a socket the module has no assignment to: everything but
    the window, the pacing counter and the stored ratio. *)
Definition static_part (tp : tcp_sock) : tcp_sock :=
  set_snd_cwnd 0 (set_snd_cwnd_cnt 0 (set_increase 0 tp)).

(** The window and its pacing counter. *)
Definition window_part (tp : tcp_sock) : Z * Z :=
  (snd_cwnd tp, snd_cwnd_cnt tp).

(** Code that leaves the connection lists alone and, outside the sockets
    in [S], leaves the view [f] of every socket as it found it. *)
Definition frame_on {X A} (f : tcp_sock -> X) (S : sock_ptr -> Prop)
    (m : M A) : Prop :=
  forall w a w', m w = Some (a, w') ->
    mpcbs w' = mpcbs w
    /\ forall p, ~ S p ->
         option_map f (tcp_sk w' p) = option_map f (tcp_sk w p).

(** Two machines with the same connection lists whose sockets agree on
    the view [f], except perhaps the sockets in [S]. *)
Definition same_view {X} (f : tcp_sock -> X) (S : sock_ptr -> Prop)
    (w w' : world) : Prop :=
  mpcbs w' = mpcbs w
  /\ forall p, ~ S p ->
       option_map f (tcp_sk w' p) = option_map f (tcp_sk w p).

(** [n] calls of [m], one after the other. *)
Fixpoint calls (n : nat) (m : M unit) : M unit :=
  match n with
  | O => ret tt
  | S k => m ;;; calls k m
  end.

Import Examples.

(** Concrete connections are shown well-formed by evaluation. *)
Ltac mp_subflow_by_eval :=
  constructor;
  [ vm_compute; reflexivity | reflexivity | reflexivity
  | vm_compute; reflexivity | reflexivity
  | eexists; split; [reflexivity | split; [reflexivity | vm_compute; reflexivity]]
  | vm_compute; reflexivity ].

(** Bounds [lo <= z < hi] on concrete numbers. *)
Ltac range_by_eval := vm_compute; split; [discriminate | reflexivity].

Ltac sock_in_range_by_eval := constructor; range_by_eval.

(** * Auxiliary facts *)

(** ** Machine integers *)

Lemma to_u32_range z : in_u32 (to_u32 z).
Proof. unfold in_u32, to_u32, to_unsigned. apply Z.mod_pos_bound. lia. Qed.

Lemma to_u64_range z : in_u64 (to_u64 z).
Proof. unfold in_u64, to_u64, to_unsigned. apply Z.mod_pos_bound. lia. Qed.

Lemma to_u32_id z : in_u32 z -> to_u32 z = z.
Proof. unfold in_u32, to_u32, to_unsigned. intros. apply Z.mod_small. lia. Qed.

Lemma to_u64_id z : in_u64 z -> to_u64 z = z.
Proof. unfold in_u64, to_u64, to_unsigned. intros. apply Z.mod_small. lia. Qed.

Lemma to_s32_range z : in_s32 (to_s32 z).
Proof.
  unfold in_s32, to_s32. pose proof (to_u32_range z) as H. unfold in_u32 in H.
  destruct (to_u32 z <? 2 ^ 31) eqn:E; [apply Z.ltb_lt in E|apply Z.ltb_ge in E];
    lia.
Qed.

Lemma to_s32_id z : in_s32 z -> to_s32 z = z.
Proof.
  unfold in_s32, to_s32, to_u32, to_unsigned. intros H.
  destruct (Z_lt_le_dec z 0) as [Hn|Hp].
  - replace (z mod 2 ^ 32) with (z + 2 ^ 32).
    + destruct (z + 2 ^ 32 <? 2 ^ 31) eqn:E;
        [apply Z.ltb_lt in E|apply Z.ltb_ge in E]; lia.
    + apply Z.mod_unique with (q := -1); lia.
  - rewrite Z.mod_small by lia.
    destruct (z <? 2 ^ 31) eqn:E; [apply Z.ltb_lt in E|apply Z.ltb_ge in E]; lia.
Qed.

Lemma to_u32_to_s32 z : to_u32 (to_s32 z) = to_u32 z.
Proof.
  unfold to_s32. pose proof (to_u32_range z) as H.
  destruct (to_u32 z <? 2 ^ 31).
  - apply to_u32_id, H.
  - unfold to_u32, to_unsigned in *.
    rewrite <- (Z.mod_add _ 1) by lia.
    replace (z mod 2 ^ 32 - 2 ^ 32 + 1 * 2 ^ 32) with (z mod 2 ^ 32) by lia.
    apply Z.mod_mod. lia.
Qed.

Lemma to_u32_to_u64 z : to_u32 (to_u64 z) = to_u32 z.
Proof.
  unfold to_u32, to_u64, to_unsigned.
  apply Z.mod_mod_divide. exists (2 ^ 32). reflexivity.
Qed.

(** The accumulator update [snd_buffer += increase] keeps the low 32 bits
    of the sum. *)
Lemma accumulate_low_bits buf inc :
  to_s32 (to_u64 (to_u64 buf + inc)) = to_s32 (buf + inc).
Proof.
  unfold to_s32. rewrite to_u32_to_u64.
  assert (E : to_u32 (to_u64 buf + inc) = to_u32 (buf + inc)).
  { pose proof (to_u32_to_u64 buf) as E.
    unfold to_u32, to_unsigned in *.
    rewrite Z.add_mod, E, <- Z.add_mod by lia. reflexivity. }
  rewrite E. reflexivity.
Qed.

Lemma DIV_ROUND_UP_ceil w n d :
  0 < w -> 0 <= n -> 0 < d -> n + d - 1 < 2 ^ w ->
  DIV_ROUND_UP w n d = ceil_div n d.
Proof.
  intros Hw Hn Hd Hlt. unfold DIV_ROUND_UP, ceil_div, to_unsigned.
  assert (0 < 2 ^ w) by (apply Z.pow_pos_nonneg; lia).
  rewrite Zminus_mod_idemp_l, Z.mod_small by lia. reflexivity.
Qed.

(** One wrap of the [int]: sums from [2^31] up to [2^32 + 2^31 - 1] come
    back lowered by [2^32]. *)
Lemma to_s32_wrap s :
  2 ^ 31 <= s < 2 ^ 32 + 2 ^ 31 -> to_s32 s = s - 2 ^ 32.
Proof.
  intros H. unfold to_s32, to_u32, to_unsigned.
  destruct (Z_lt_le_dec s (2 ^ 32)) as [Hlt|Hge].
  - rewrite Z.mod_small by lia.
    destruct (s <? 2 ^ 31) eqn:E; [apply Z.ltb_lt in E; lia|reflexivity].
  - replace (s mod 2 ^ 32) with (s - 2 ^ 32)
      by (apply Z.mod_unique with (q := 1); lia).
    destruct (s - 2 ^ 32 <? 2 ^ 31) eqn:E; [reflexivity|].
    apply Z.ltb_ge in E. lia.
Qed.

(** ** Running the monad *)

Lemma run_bind {A B} (m : M A) (k : A -> M B) w a w1 :
  m w = Some (a, w1) -> bind m k w = k a w1.
Proof. unfold bind. intros ->. reflexivity. Qed.

Lemma run_load w sk tp : tcp_sk w sk = Some tp -> load sk w = Some (tp, w).
Proof. unfold load. intros ->. reflexivity. Qed.

Lemma run_modify w sk tp f :
  tcp_sk w sk = Some tp -> modify sk f w = Some (tt, store_sock sk (f tp) w).
Proof. unfold modify. intros ->. reflexivity. Qed.

Lemma run_subflows w cb subs :
  mpcbs w !! cb = Some subs -> subflows cb w = Some (subs, w).
Proof. unfold subflows. intros ->. reflexivity. Qed.

Lemma tcp_sk_store w a x b :
  tcp_sk (store_sock a x w) b = if decide (a = b) then Some x else tcp_sk w b.
Proof.
  unfold tcp_sk, store_sock. simpl. destruct (decide (a = b)) as [->|Hne].
  - apply lookup_insert_eq.
  - apply lookup_insert_ne, Hne.
Qed.

Lemma tcp_sk_store_eq w a x : tcp_sk (store_sock a x w) a = Some x.
Proof. rewrite tcp_sk_store. destruct (decide (a = a)); congruence. Qed.

Lemma tcp_sk_set_snd_buffer w v sk : tcp_sk (set_snd_buffer v w) sk = tcp_sk w sk.
Proof. reflexivity. Qed.

(** The bandwidth loop reads and never writes. *)
Lemma sum_bandwidth_frame subs : forall t w tb w',
  sum_bandwidth subs t w = Some (tb, w') -> w' = w.
Proof.
  induction subs as [|s rest IH]; intros t w tb w' H; simpl in H.
  - unfold ret in H. congruence.
  - unfold bind, load in H. destruct (tcp_sk w s) as [tp|]; [|discriminate].
    destruct (mptcp_cmtrpv2_sk_can_send tp); eapply IH; exact H.
Qed.

(** On a connection list of sockets the loop returns. *)
Lemma sum_bandwidth_returns subs : forall t w,
  subflows_mapped w subs = true ->
  exists tb, sum_bandwidth subs t w = Some (tb, w).
Proof.
  induction subs as [|s rest IH]; intros t w H; simpl in *.
  - exists t. reflexivity.
  - apply andb_true_iff in H as [Hs Hrest].
    unfold bind, load. destruct (tcp_sk w s) as [tp|]; [|discriminate].
    destruct (mptcp_cmtrpv2_sk_can_send tp); apply IH, Hrest.
Qed.

(** The sum stays a [u64] value. *)
Lemma sum_bandwidth_range subs : forall t w tb w',
  in_u64 t -> sum_bandwidth subs t w = Some (tb, w') -> in_u64 tb.
Proof.
  induction subs as [|s rest IH]; intros t w tb w' Ht H; simpl in H.
  - unfold ret in H. congruence.
  - unfold bind, load in H. destruct (tcp_sk w s) as [tp|]; [|discriminate].
    destruct (mptcp_cmtrpv2_sk_can_send tp).
    + eapply IH; [|exact H]. apply to_u64_range.
    + eapply IH; [exact Ht|exact H].
Qed.

(** ** The growth-ratio calculator *)

Lemma calc_increase_ratio_run w sk tp cb subs tb meta mtp factor :
  tcp_sk w sk = Some tp -> mpcb tp = Some cb -> factor <> 0 ->
  mpcbs w !! cb = Some subs -> sum_bandwidth subs 0 w = Some (tb, w) ->
  meta_sk tp = Some meta -> tcp_sk w meta = Some mtp ->
  mptcp_cmtrpv2_calc_increase_ratio sk factor w
  = Some (tt, store_sock meta (set_increase (increase_of tp factor tb) mtp) w).
Proof.
  intros Hsk Hcb Hf Hsubs Hsum Hmeta Hmsk.
  unfold mptcp_cmtrpv2_calc_increase_ratio.
  rewrite (run_bind _ _ _ _ _ (run_load _ _ _ Hsk)), Hcb.
  apply Z.eqb_neq in Hf. rewrite Hf.
  rewrite (run_bind _ _ _ _ _ (run_subflows _ _ _ Hsubs)).
  rewrite (run_bind _ _ _ _ _ Hsum), Hmeta. simpl.
  unfold mptcp_set_increase_ratio. apply run_modify, Hmsk.
Qed.

Lemma calc_increase_ratio_zero w sk tp :
  tcp_sk w sk = Some tp ->
  mptcp_cmtrpv2_calc_increase_ratio sk 0 w = Some (tt, w).
Proof.
  intros Hsk. unfold mptcp_cmtrpv2_calc_increase_ratio.
  rewrite (run_bind _ _ _ _ _ (run_load _ _ _ Hsk)).
  destruct (mpcb tp); reflexivity.
Qed.

Lemma calc_increase_ratio_spec w sk tp cb subs tb meta mtp factor :
  tcp_sk w sk = Some tp -> mpcb tp = Some cb ->
  mpcbs w !! cb = Some subs -> sum_bandwidth subs 0 w = Some (tb, w) ->
  meta_sk tp = Some meta -> tcp_sk w meta = Some mtp ->
  mptcp_cmtrpv2_calc_increase_ratio sk factor w
  = Some (tt, ratio_stored w meta mtp tp factor tb).
Proof.
  intros Hsk Hcb Hsubs Hsum Hmeta Hmsk. unfold ratio_stored.
  destruct (factor =? 0) eqn:Hf.
  - apply Z.eqb_eq in Hf. subst factor. eapply calc_increase_ratio_zero, Hsk.
  - apply Z.eqb_neq in Hf. eapply calc_increase_ratio_run; eassumption.
Qed.

Lemma ratio_stored_buffer w meta mtp tp factor tb :
  snd_buffer (ratio_stored w meta mtp tp factor tb) = snd_buffer w.
Proof. unfold ratio_stored. destruct (factor =? 0); reflexivity. Qed.

Lemma ratio_stored_meta w meta mtp tp factor tb :
  tcp_sk w meta = Some mtp ->
  exists mtp', tcp_sk (ratio_stored w meta mtp tp factor tb) meta = Some mtp'
    /\ increase mtp' = ratio_used (increase mtp) tp factor tb
    /\ set_increase 0 mtp' = set_increase 0 mtp.
Proof.
  intros H. unfold ratio_stored, ratio_used. destruct (factor =? 0).
  - exists mtp. auto.
  - eexists. rewrite tcp_sk_store_eq. split; [reflexivity|]. split; reflexivity.
Qed.

Lemma ratio_stored_other w meta mtp tp factor tb sk :
  sk <> meta ->
  tcp_sk (ratio_stored w meta mtp tp factor tb) sk = tcp_sk w sk.
Proof.
  intros Hne. unfold ratio_stored. destruct (factor =? 0); [reflexivity|].
  rewrite tcp_sk_store. destruct (decide (meta = sk)); congruence.
Qed.

(** Whichever socket is read after the calculator ran, only its stored
    ratio may have changed. *)
Lemma ratio_stored_sock w meta mtp tp factor tb sk tq :
  tcp_sk w meta = Some mtp -> tcp_sk w sk = Some tq ->
  exists tq', tcp_sk (ratio_stored w meta mtp tp factor tb) sk = Some tq'
    /\ set_increase 0 tq' = set_increase 0 tq.
Proof.
  intros Hm Hs. destruct (decide (sk = meta)) as [->|Hne].
  - destruct (ratio_stored_meta w meta mtp tp factor tb Hm) as (m' & E & _ & F).
    exists m'. split; [exact E|]. congruence.
  - exists tq. rewrite ratio_stored_other by exact Hne. auto.
Qed.

(** ** The slow-start engine *)

Lemma unchanged_fields tq' tq :
  set_increase 0 tq' = set_increase 0 tq ->
  snd_cwnd tq' = snd_cwnd tq /\ snd_ssthresh tq' = snd_ssthresh tq
  /\ snd_cwnd_cnt tq' = snd_cwnd_cnt tq
  /\ snd_cwnd_clamp tq' = snd_cwnd_clamp tq /\ mss_cache tq' = mss_cache tq.
Proof.
  intros H.
  pose proof (f_equal snd_cwnd H). pose proof (f_equal snd_ssthresh H).
  pose proof (f_equal snd_cwnd_cnt H). pose proof (f_equal snd_cwnd_clamp H).
  pose proof (f_equal mss_cache H). simpl in *. auto.
Qed.

(** What one slow-start call does on a multipath subflow: it returns, the
    accumulator takes the ratio, and the window moves by at most one
    segment. *)
Lemma slow_start_run w sk tp meta mtp subs tb acked :
  mp_subflow w sk tp meta mtp subs ->
  sum_bandwidth subs 0 w = Some (tb, w) ->
  let inc := ratio_used (increase mtp) mtp (slow_start_factor tp acked) tb in
  let buf := buffer_add (snd_buffer w) inc in
  exists r w' tp',
    mptcp_cmtrpv2_slow_start sk acked w = Some (r, w')
    /\ tcp_sk w' sk = Some tp'
    /\ snd_ssthresh tp' = snd_ssthresh tp
    /\ snd_cwnd_cnt tp' = snd_cwnd_cnt tp
    /\ (if buffer_reaches buf (mss_cache tp)
        then snd_cwnd tp' = to_u32 (snd_cwnd tp + 1)
             /\ snd_buffer w' = buffer_sub buf (mss_cache tp)
        else snd_cwnd tp' = snd_cwnd tp /\ snd_buffer w' = buf).
Proof.
  intros [Hsk Hmpc Hmeta Hmsk Hmm (cb & Hcb & Hmcb & Hsubs) Hmap] Hsum inc buf.
  pose proof (calc_increase_ratio_spec w meta mtp cb subs tb meta mtp
                (slow_start_factor tp acked) Hmsk Hmcb Hsubs Hsum Hmm Hmsk)
    as Hcalc.
  set (w1 := ratio_stored w meta mtp mtp (slow_start_factor tp acked) tb) in *.
  destruct (ratio_stored_meta w meta mtp mtp (slow_start_factor tp acked) tb Hmsk)
    as (mtp' & Hm1 & Hinc & _).
  destruct (ratio_stored_sock w meta mtp mtp (slow_start_factor tp acked) tb
              sk tp Hmsk Hsk) as (tq & Hs1 & Hsame).
  fold w1 in Hm1, Hs1.
  apply unchanged_fields in Hsame as (Hc & Hss & Hcnt & _ & _).
  unfold mptcp_cmtrpv2_slow_start.
  rewrite (run_bind _ _ _ _ _ (run_load _ _ _ Hsk)), Hmeta. simpl deref.
  unfold slow_start_factor in *.
  rewrite (run_bind _ _ _ _ _ eq_refl).
  rewrite (run_bind _ _ _ _ _ Hcalc).
  unfold mptcp_get_increase_ratio.
  rewrite (run_bind _ _ _ _ _ (run_bind _ _ _ _ _ (run_load _ _ _ Hm1))).
  unfold read_snd_buffer, write_snd_buffer.
  rewrite (run_bind _ _ _ _ _ eq_refl).
  rewrite (run_bind _ _ _ _ _ eq_refl).
  rewrite (run_bind _ _ _ _ _ eq_refl).
  cbn [snd_buffer set_snd_buffer].
  replace (snd_buffer w1) with (snd_buffer w)
    by (symmetry; apply ratio_stored_buffer).
  rewrite Hinc. fold inc. fold buf.
  destruct (buffer_reaches buf (mss_cache tp)).
  - assert (Hs2 : tcp_sk (set_snd_buffer buf w1) sk = Some tq) by exact Hs1.
    rewrite (run_bind _ _ _ _ _
               (run_bind _ _ _ _ _ (run_modify _ _ _ _ Hs2))).
    do 3 eexists. split; [reflexivity|].
    cbn [snd_buffer set_snd_buffer]. rewrite tcp_sk_set_snd_buffer.
    rewrite tcp_sk_store_eq. split; [reflexivity|]. simpl.
    rewrite Hc. auto.
  - rewrite (run_bind _ _ _ _ _ eq_refl).
    do 3 eexists. split; [reflexivity|].
    rewrite tcp_sk_set_snd_buffer. split; [exact Hs1|]. simpl. auto.
Qed.

(** ** The dispatcher and the congestion-avoidance engine *)

Section Dispatch.

Context {stack : tcp_stack}.

Lemma cong_avoid_single_path w sk tp ack acked :
  tcp_sk w sk = Some tp -> mpc tp = false ->
  mptcp_cmtrpv2_cong_avoid sk ack acked w
  = Some (tt, store_sock sk (tcp_reno_cong_avoid tp ack acked) w).
Proof.
  intros Hsk Hmpc. unfold mptcp_cmtrpv2_cong_avoid.
  rewrite (run_bind _ _ _ _ _ (run_load _ _ _ Hsk)), Hmpc. simpl.
  exact (run_modify _ _ _ (fun t => tcp_reno_cong_avoid t ack acked) Hsk).
Qed.

Lemma cong_avoid_not_limited w sk tp ack acked :
  tcp_sk w sk = Some tp -> mpc tp = true -> cwnd_limited tp = false ->
  mptcp_cmtrpv2_cong_avoid sk ack acked w = Some (tt, w).
Proof.
  intros Hsk Hmpc Hlim. unfold mptcp_cmtrpv2_cong_avoid.
  rewrite (run_bind _ _ _ _ _ (run_load _ _ _ Hsk)), Hmpc, Hlim.
  reflexivity.
Qed.

Lemma cong_avoid_slow_start w sk tp ack acked :
  tcp_sk w sk = Some tp -> mpc tp = true -> cwnd_limited tp = true ->
  snd_cwnd tp <= snd_ssthresh tp ->
  mptcp_cmtrpv2_cong_avoid sk ack acked w
  = (mptcp_cmtrpv2_slow_start sk acked ;;; ret tt) w.
Proof.
  intros Hsk Hmpc Hlim Hle. unfold mptcp_cmtrpv2_cong_avoid.
  rewrite (run_bind _ _ _ _ _ (run_load _ _ _ Hsk)), Hmpc, Hlim.
  apply Z.leb_le in Hle. simpl. rewrite Hle. reflexivity.
Qed.

(** What one congestion-avoidance call does on a multipath subflow above
    its threshold. *)
Lemma cong_avoid_run w sk tp meta mtp subs tb ack acked :
  mp_subflow w sk tp meta mtp subs ->
  sum_bandwidth subs 0 w = Some (tb, w) ->
  cwnd_limited tp = true -> snd_ssthresh tp < snd_cwnd tp ->
  let inc := ratio_used (increase mtp) tp (mss_cache tp) tb in
  let buf := buffer_add (snd_buffer w) inc in
  exists w' tp',
    mptcp_cmtrpv2_cong_avoid sk ack acked w = Some (tt, w')
    /\ tcp_sk w' sk = Some tp'
    /\ snd_ssthresh tp' = snd_ssthresh tp
    /\ (if snd_cwnd tp <=? snd_cwnd_cnt tp
        then
          if buffer_reaches buf (mss_cache tp)
          then snd_cwnd tp'
               = (if snd_cwnd tp <? snd_cwnd_clamp tp
                  then to_u32 (snd_cwnd tp + 1) else snd_cwnd tp)
               /\ snd_cwnd_cnt tp' = 0
               /\ snd_buffer w' = buffer_sub buf (mss_cache tp)
          else snd_cwnd tp' = snd_cwnd tp
               /\ snd_cwnd_cnt tp' = snd_cwnd_cnt tp
               /\ snd_buffer w' = buf
        else snd_cwnd tp' = snd_cwnd tp
             /\ snd_cwnd_cnt tp' = to_u32 (snd_cwnd_cnt tp + 1)
             /\ snd_buffer w' = buf).
Proof.
  intros [Hsk Hmpc Hmeta Hmsk Hmm (cb & Hcb & Hmcb & Hsubs) Hmap]
         Hsum Hlim Hgt inc buf.
  pose proof (calc_increase_ratio_spec w sk tp cb subs tb meta mtp
                (mss_cache tp) Hsk Hcb Hsubs Hsum Hmeta Hmsk) as Hcalc.
  set (w1 := ratio_stored w meta mtp tp (mss_cache tp) tb) in *.
  destruct (ratio_stored_meta w meta mtp tp (mss_cache tp) tb Hmsk)
    as (mtp' & Hm1 & Hinc & _).
  destruct (ratio_stored_sock w meta mtp tp (mss_cache tp) tb
              sk tp Hmsk Hsk) as (tq & Hs1 & Hsame).
  fold w1 in Hm1, Hs1.
  apply unchanged_fields in Hsame as (Hc & Hss & Hcnt & Hcl & Hmss).
  unfold mptcp_cmtrpv2_cong_avoid.
  rewrite (run_bind _ _ _ _ _ (run_load _ _ _ Hsk)), Hmpc, Hlim.
  apply Z.leb_gt in Hgt. cbn [negb]. rewrite Hgt.
  rewrite (run_bind _ _ _ _ _ Hcalc), Hmeta. simpl deref.
  rewrite (run_bind _ _ _ _ _ eq_refl).
  unfold mptcp_get_increase_ratio.
  rewrite (run_bind _ _ _ _ _ (run_bind _ _ _ _ _ (run_load _ _ _ Hm1))).
  unfold read_snd_buffer, write_snd_buffer.
  do 3 rewrite (run_bind _ _ _ _ _ eq_refl).
  cbn [snd_buffer set_snd_buffer].
  replace (snd_buffer w1) with (snd_buffer w)
    by (symmetry; apply ratio_stored_buffer).
  rewrite Hinc. fold inc. fold buf.
  assert (Hs2 : tcp_sk (set_snd_buffer buf w1) sk = Some tq) by exact Hs1.
  rewrite (run_bind _ _ _ _ _ (run_load _ _ _ Hs2)).
  rewrite Hc, Hcnt, Hmss, Hcl.
  destruct (snd_cwnd tp <=? snd_cwnd_cnt tp).
  - destruct (buffer_reaches buf (mss_cache tp)).
    + destruct (snd_cwnd tp <? snd_cwnd_clamp tp).
      * rewrite (run_bind _ _ _ _ _ (run_modify _ _ _ _ Hs2)).
        rewrite (run_bind _ _ _ _ _ eq_refl).
        erewrite run_modify
          by (rewrite tcp_sk_set_snd_buffer; apply tcp_sk_store_eq).
        do 2 eexists. split; [reflexivity|].
        rewrite tcp_sk_store_eq. split; [reflexivity|]. simpl.
        rewrite Hc. auto.
      * rewrite (run_bind _ _ _ _ _ eq_refl).
        rewrite (run_bind _ _ _ _ _ eq_refl).
        erewrite run_modify by (rewrite tcp_sk_set_snd_buffer; exact Hs2).
        do 2 eexists. split; [reflexivity|].
        rewrite tcp_sk_store_eq. split; [reflexivity|]. simpl. auto.
    + do 2 eexists. split; [reflexivity|]. split; [exact Hs2|]. auto.
  - erewrite run_modify by exact Hs2.
    do 2 eexists. split; [reflexivity|].
    rewrite tcp_sk_store_eq. split; [reflexivity|]. simpl.
    rewrite Hcnt. auto.
Qed.

End Dispatch.

(** ** Accumulator arithmetic *)

Lemma buffer_add_low_bits buf inc : buffer_add buf inc = to_s32 (buf + inc).
Proof. apply accumulate_low_bits. Qed.

(** Without overflow of the [int], the update is the plain sum. *)
Lemma buffer_add_exact buf inc :
  in_s32 (buf + inc) -> buffer_add buf inc = buf + inc.
Proof. intros H. rewrite buffer_add_low_bits. apply to_s32_id, H. Qed.

(** On a non-negative accumulator the comparison is the plain one. *)
Lemma buffer_reaches_nonneg buf mss :
  0 <= buf < 2 ^ 31 -> buffer_reaches buf mss = (mss <=? buf).
Proof.
  intros H. unfold buffer_reaches. rewrite to_u32_id; [reflexivity|].
  unfold in_u32. lia.
Qed.

(** A negative accumulator passes the comparison with every segment
    size. *)
Lemma buffer_reaches_negative buf mss :
  - 2 ^ 31 <= buf < 0 -> mss < 2 ^ 31 -> buffer_reaches buf mss = true.
Proof.
  intros H Hm. unfold buffer_reaches, to_u32, to_unsigned.
  replace (buf mod 2 ^ 32) with (buf + 2 ^ 32).
  - apply Z.leb_le. lia.
  - apply Z.mod_unique with (q := -1); lia.
Qed.

Lemma buffer_sub_exact buf mss :
  0 <= mss <= buf -> buf < 2 ^ 31 -> buffer_sub buf mss = buf - mss.
Proof.
  intros H Hb. unfold buffer_sub.
  rewrite (to_u32_id buf) by (unfold in_u32; lia).
  rewrite to_u32_id by (unfold in_u32; lia).
  apply to_s32_id. unfold in_s32. lia.
Qed.

(** ** The loss response *)

Section LossResponse.

Context {stack : tcp_stack}.

Lemma calc_ssthresh_run w sk tp cb subs tb :
  tcp_sk w sk = Some tp -> mpcb tp = Some cb ->
  mpcbs w !! cb = Some subs -> sum_bandwidth subs 0 w = Some (tb, w) ->
  mptcp_cmtrpv2_calc_ssthresh sk w = Some (new_ssthresh_of tp tb, w).
Proof.
  intros Hsk Hcb Hsubs Hsum. unfold mptcp_cmtrpv2_calc_ssthresh.
  rewrite (run_bind _ _ _ _ _ (run_load _ _ _ Hsk)), Hcb.
  rewrite (run_bind _ _ _ _ _ (run_subflows _ _ _ Hsubs)).
  rewrite (run_bind _ _ _ _ _ Hsum). reflexivity.
Qed.

Lemma fast_rtx_run w sk tp ssthresh :
  tcp_sk w sk = Some tp ->
  mptcp_cmtrpv2_fast_rtx sk ssthresh w
  = Some (tt, if to_u32 dup_acks_rtx <=? sacked_out tp
              then store_sock sk (set_snd_cwnd ssthresh tp) w else w).
Proof.
  intros Hsk. unfold mptcp_cmtrpv2_fast_rtx.
  rewrite (run_bind _ _ _ _ _ (run_load _ _ _ Hsk)).
  destruct (to_u32 dup_acks_rtx <=? sacked_out tp); [|reflexivity].
  apply run_modify, Hsk.
Qed.

Lemma ssthresh_single_path w sk tp :
  tcp_sk w sk = Some tp -> mpc tp = false ->
  mptcp_cmtrpv2_ssthresh sk w = Some (tcp_reno_ssthresh tp, w).
Proof.
  intros Hsk Hmpc. unfold mptcp_cmtrpv2_ssthresh.
  rewrite (run_bind _ _ _ _ _ (run_load _ _ _ Hsk)), Hmpc. reflexivity.
Qed.

Lemma ssthresh_run w sk tp meta mtp subs tb :
  mp_subflow w sk tp meta mtp subs ->
  sum_bandwidth subs 0 w = Some (tb, w) ->
  mptcp_cmtrpv2_ssthresh sk w
  = Some (new_ssthresh_of tp tb,
          if to_u32 dup_acks_rtx <=? sacked_out tp
          then store_sock sk (set_snd_cwnd (new_ssthresh_of tp tb) tp) w
          else w).
Proof.
  intros [Hsk Hmpc Hmeta Hmsk Hmm (cb & Hcb & Hmcb & Hsubs) Hmap] Hsum.
  unfold mptcp_cmtrpv2_ssthresh.
  rewrite (run_bind _ _ _ _ _ (run_load _ _ _ Hsk)), Hmpc. cbn [negb].
  rewrite (run_bind _ _ _ _ _
             (calc_ssthresh_run _ _ _ _ _ _ Hsk Hcb Hsubs Hsum)).
  rewrite (run_bind _ _ _ _ _ (fast_rtx_run _ _ _ _ Hsk)). reflexivity.
Qed.

End LossResponse.

(** ** The threshold and ratio formulas *)

Lemma DIV_ROUND_UP_nonneg w n d : 0 < w -> 0 < d -> 0 <= DIV_ROUND_UP w n d.
Proof.
  intros Hw Hd. unfold DIV_ROUND_UP, to_unsigned.
  apply Z.div_pos; [|exact Hd].
  apply Z.mod_pos_bound. apply Z.pow_pos_nonneg; lia.
Qed.

(** The computed threshold lies between 1 and the window, whatever the
    bandwidth sum. *)
Lemma new_ssthresh_of_bounds tp tb :
  1 <= snd_cwnd tp < 2 ^ 32 ->
  1 <= new_ssthresh_of tp tb <= snd_cwnd tp.
Proof.
  intros Hc. unfold new_ssthresh_of.
  set (d0 := DIV_ROUND_UP 64 _ 2).
  set (d1 := DIV_ROUND_UP 32 _ 2).
  assert (0 <= d0) by (apply DIV_ROUND_UP_nonneg; lia).
  assert (0 <= d1) by (apply DIV_ROUND_UP_nonneg; lia).
  set (d := if d0 <? d1 then d1 else d0).
  assert (0 <= d) by (unfold d; destruct (d0 <? d1); assumption).
  destruct (d <? snd_cwnd tp) eqn:E.
  - apply Z.ltb_lt in E. rewrite to_u32_id; [lia|]. unfold in_u32. lia.
  - lia.
Qed.

(** Inside the range of the C types the computed threshold is the one of
    the spec. *)
Lemma new_ssthresh_of_spec tp tb :
  0 <= snd_cwnd tp < 2 ^ 32 - 1 -> 0 <= tb * srtt_us tp < 2 ^ 64 ->
  new_ssthresh_of tp tb = spec_new_ssthresh (snd_cwnd tp) (srtt_us tp) tb.
Proof.
  intros Hc Hp. unfold new_ssthresh_of, spec_new_ssthresh.
  rewrite (to_u64_id (tb * srtt_us tp)) by exact Hp.
  set (x := Z.shiftr (tb * srtt_us tp) rpv2_scale).
  assert (Hx : 0 <= x < 2 ^ 32).
  { unfold x, rpv2_scale. rewrite Z.shiftr_div_pow2 by lia. split.
    - apply Z.div_pos; lia.
    - apply Z.div_lt_upper_bound; lia. }
  rewrite (DIV_ROUND_UP_ceil 64 x 2) by lia.
  rewrite (DIV_ROUND_UP_ceil 32 (snd_cwnd tp) 2) by lia.
  set (d0 := ceil_div x 2). set (d1 := ceil_div (snd_cwnd tp) 2).
  assert (Hd1 : 0 <= d1).
  { unfold d1, ceil_div. apply Z.div_pos; lia. }
  assert (Hd0 : 0 <= d0).
  { unfold d0, ceil_div. apply Z.div_pos; lia. }
  replace (if d0 <? d1 then d1 else d0) with (Z.max d0 d1)
    by (destruct (d0 <? d1) eqn:E;
        [apply Z.ltb_lt in E|apply Z.ltb_ge in E]; lia).
  destruct (Z.max d0 d1 <? snd_cwnd tp) eqn:E.
  - apply Z.ltb_lt in E.
    replace (1 <=? snd_cwnd tp - Z.max d0 d1) with true
      by (symmetry; apply Z.leb_le; lia).
    apply to_u32_id. unfold in_u32. lia.
  - apply Z.ltb_ge in E.
    replace (1 <=? snd_cwnd tp - Z.max d0 d1) with false
      by (symmetry; apply Z.leb_gt; lia).
    reflexivity.
Qed.

(** Inside the range of the C types the computed ratio is the one of the
    spec. *)
Lemma increase_of_spec tp F tb :
  0 <= snd_cwnd tp * F < 2 ^ 32 -> 0 <= srtt_us tp * tb < 2 ^ 64 ->
  increase_of tp F tb = spec_increase (snd_cwnd tp) (srtt_us tp) F tb.
Proof.
  intros Hn Hp. unfold increase_of, spec_increase.
  rewrite (to_u64_id (srtt_us tp * tb)) by exact Hp.
  rewrite (to_u32_id (snd_cwnd tp * F)) by exact Hn.
  set (x := Z.shiftr (srtt_us tp * tb) rpv2_scale).
  assert (Hx : 0 <= x < 2 ^ 32).
  { unfold x, rpv2_scale. rewrite Z.shiftr_div_pow2 by lia. split.
    - apply Z.div_pos; lia.
    - apply Z.div_lt_upper_bound; lia. }
  set (d := if x =? 0 then 1 else x).
  assert (Hd : 1 <= d < 2 ^ 32).
  { unfold d. destruct (x =? 0) eqn:E; [lia|]. apply Z.eqb_neq in E. lia. }
  apply DIV_ROUND_UP_ceil; lia.
Qed.

Lemma ratio_used_fresh stored tp F tb :
  F <> 0 -> ratio_used stored tp F tb = increase_of tp F tb.
Proof.
  intros HF. unfold ratio_used. apply Z.eqb_neq in HF. rewrite HF.
  reflexivity.
Qed.

(** ** Where the stored ratio lives *)

Lemma frame_ret {A} (a : A) : ratio_frame (ret a).
Proof. intros w b w' H p. unfold ret in H. congruence. Qed.

Lemma frame_bind {A B} (m : M A) (k : A -> M B) :
  ratio_frame m -> (forall a, ratio_frame (k a)) -> ratio_frame (bind m k).
Proof.
  intros Hm Hk w b w' H p. unfold bind in H.
  destruct (m w) as [[a w1]|] eqn:E; [|discriminate].
  rewrite (Hk a w1 b w' H p). exact (Hm w a w1 E p).
Qed.

Lemma frame_load sk : ratio_frame (load sk).
Proof.
  intros w a w' H p. unfold load in H.
  destruct (tcp_sk w sk); congruence.
Qed.

Lemma frame_read_snd_buffer : ratio_frame read_snd_buffer.
Proof. intros w a w' H p. unfold read_snd_buffer in H. congruence. Qed.

Lemma frame_write_snd_buffer v : ratio_frame (write_snd_buffer v).
Proof.
  intros w a w' H p. unfold write_snd_buffer in H.
  injection H as _ <-. reflexivity.
Qed.

Lemma frame_modify sk f :
  (forall t, increase (f t) = increase t) -> ratio_frame (modify sk f).
Proof.
  intros Hf w a w' H p. unfold modify in H.
  destruct (tcp_sk w sk) as [t|] eqn:E; [|discriminate].
  injection H as _ <-. rewrite tcp_sk_store.
  destruct (decide (sk = p)) as [<-|]; [|reflexivity].
  rewrite E. simpl. rewrite Hf. reflexivity.
Qed.

Lemma frame_get_increase_ratio meta :
  ratio_frame (mptcp_get_increase_ratio meta).
Proof.
  unfold mptcp_get_increase_ratio. apply frame_bind.
  - apply frame_load.
  - intros. apply frame_ret.
Qed.

Ltac ratio_frame_step :=
  first [ apply frame_ret | apply frame_load | apply frame_read_snd_buffer
        | apply frame_write_snd_buffer | apply frame_get_increase_ratio
        | apply frame_modify; intros; reflexivity
        | apply frame_bind; [|intros]
        | match goal with
          | |- ratio_frame (if ?c then _ else _) => destruct c
          end ].

(** After a slow-start call the meta socket holds the ratio the call
    added to the accumulator. *)
Lemma slow_start_ratio w sk tp meta mtp subs tb acked r w' :
  mp_subflow w sk tp meta mtp subs ->
  sum_bandwidth subs 0 w = Some (tb, w) ->
  mptcp_cmtrpv2_slow_start sk acked w = Some (r, w') ->
  option_map increase (tcp_sk w' meta)
  = Some (ratio_used (increase mtp) mtp (slow_start_factor tp acked) tb).
Proof.
  intros [Hsk Hmpc Hmeta Hmsk Hmm (cb & Hcb & Hmcb & Hsubs) Hmap] Hsum Hrun.
  pose proof (calc_increase_ratio_spec w meta mtp cb subs tb meta mtp
                (slow_start_factor tp acked) Hmsk Hmcb Hsubs Hsum Hmm Hmsk)
    as Hcalc.
  destruct (ratio_stored_meta w meta mtp mtp (slow_start_factor tp acked) tb Hmsk)
    as (mtp' & Hm1 & Hinc & _).
  unfold mptcp_cmtrpv2_slow_start in Hrun.
  rewrite (run_bind _ _ _ _ _ (run_load _ _ _ Hsk)), Hmeta in Hrun.
  simpl deref in Hrun. unfold slow_start_factor in *.
  rewrite (run_bind _ _ _ _ _ eq_refl) in Hrun.
  rewrite (run_bind _ _ _ _ _ Hcalc) in Hrun.
  match type of Hrun with
  | ?m _ = _ => assert (Hfr : ratio_frame m)
  end.
  { repeat ratio_frame_step. }
  rewrite (Hfr _ _ _ Hrun meta), Hm1. simpl. rewrite Hinc. reflexivity.
Qed.

Section RatioOfCongAvoid.

Context {stack : tcp_stack}.

(** After a congestion-avoidance call the meta socket holds the ratio the
    call added to the accumulator. *)
Lemma cong_avoid_ratio w sk tp meta mtp subs tb ack acked w' :
  mp_subflow w sk tp meta mtp subs ->
  sum_bandwidth subs 0 w = Some (tb, w) ->
  cwnd_limited tp = true -> snd_ssthresh tp < snd_cwnd tp ->
  mptcp_cmtrpv2_cong_avoid sk ack acked w = Some (tt, w') ->
  option_map increase (tcp_sk w' meta)
  = Some (ratio_used (increase mtp) tp (mss_cache tp) tb).
Proof.
  intros [Hsk Hmpc Hmeta Hmsk Hmm (cb & Hcb & Hmcb & Hsubs) Hmap]
         Hsum Hlim Hgt Hrun.
  pose proof (calc_increase_ratio_spec w sk tp cb subs tb meta mtp
                (mss_cache tp) Hsk Hcb Hsubs Hsum Hmeta Hmsk) as Hcalc.
  destruct (ratio_stored_meta w meta mtp tp (mss_cache tp) tb Hmsk)
    as (mtp' & Hm1 & Hinc & _).
  unfold mptcp_cmtrpv2_cong_avoid in Hrun.
  rewrite (run_bind _ _ _ _ _ (run_load _ _ _ Hsk)), Hmpc, Hlim in Hrun.
  apply Z.leb_gt in Hgt. cbn [negb] in Hrun. rewrite Hgt in Hrun.
  rewrite (run_bind _ _ _ _ _ Hcalc), Hmeta in Hrun. simpl deref in Hrun.
  rewrite (run_bind _ _ _ _ _ eq_refl) in Hrun.
  match type of Hrun with
  | ?m _ = _ => assert (Hfr : ratio_frame m)
  end.
  { repeat ratio_frame_step. }
  rewrite (Hfr _ _ _ Hrun meta), Hm1. simpl. rewrite Hinc. reflexivity.
Qed.

End RatioOfCongAvoid.

(** * The accumulator across connections *)

(** C1: the accumulator is one file-scope variable and not state of the
    connection.  Two connections, accumulator 0: a growth call on subflow
    11 of the second connection alone adds its ratio of 163 and leaves the
    window at 10.  When subflow 1 of the first connection makes a growth
    call first (ratio 1356, accumulator 1356, its own window unchanged),
    the same call on subflow 11 finds 1356, reaches 1519 and grows the
    window to 11: the accumulator one connection observes depends on the
    growth calls of the other. *)
Theorem C1_accumulator_shared_by_all_connections :
  let w := two_conns 0 (subflow 0 0 13 20 800)
             (subflow 0 0 10 20 800) (subflow 0 0 10 20 1600)
             (subflow 1 10 1 20 800) (subflow 1 10 10 20 800) in
  let on_first := mptcp_cmtrpv2_cong_avoid 1 0 1 in
  let on_second := mptcp_cmtrpv2_cong_avoid 11 0 1 in
  buffer_after on_second w = Some 163
  /\ cwnd_after on_second 11 w = Some 10
  /\ buffer_after on_first w = Some 1356
  /\ cwnd_after on_first 1 w = Some 10
  /\ buffer_after (on_first ;;; on_second) w = Some 59
  /\ cwnd_after (on_first ;;; on_second) 11 w = Some 11.
Proof. vm_compute. repeat split; reflexivity. Qed.

(** * The growth ratio *)

Section RatioClaims.

Context {stack : tcp_stack}.

(** C2 (as amended): a growth call on a window-limited multipath subflow
    with a non-zero reward factor [F] ([min(acked * mss, mss)] in slow
    start, [mss] in congestion avoidance) computes the ratio from the
    socket it hands to the calculator: the connection's meta socket in
    slow start, the calling subflow in congestion avoidance.  When that
    socket's [cwnd * F] fits 32 bits and its [srtt * total_bandwidth] fits
    64 bits, the ratio is [ceil(cwnd * F / denominator)] with
    [denominator = (srtt * total_bandwidth) >> 32], or 1 if that is 0; it
    is stored in the meta socket, whatever ratio was there before, and it
    is this value that the call adds to the accumulator. *)
Theorem C2_fresh_ratio_of_the_calculator_socket
    w sk tp meta mtp subs tb ack acked :
  mp_subflow w sk tp meta mtp subs ->
  sum_bandwidth subs 0 w = Some (tb, w) ->
  cwnd_limited tp = true ->
  let slow := snd_cwnd tp <=? snd_ssthresh tp in
  let src := if slow then mtp else tp in
  let F := if slow then slow_start_factor tp acked else mss_cache tp in
  F <> 0 ->
  0 <= snd_cwnd src * F < 2 ^ 32 ->
  0 <= srtt_us src * tb < 2 ^ 64 ->
  let ratio := spec_increase (snd_cwnd src) (srtt_us src) F tb in
  let acc := buffer_add (snd_buffer w) ratio in
  exists w',
    mptcp_cmtrpv2_cong_avoid sk ack acked w = Some (tt, w')
    /\ option_map increase (tcp_sk w' meta) = Some ratio
    /\ (snd_buffer w' = acc
        \/ snd_buffer w' = buffer_sub acc (mss_cache tp)).
Proof.
  intros Hmp Hsum Hlim.
  pose proof (mp_sock _ _ _ _ _ _ Hmp) as Hsk.
  pose proof (mp_mpc _ _ _ _ _ _ Hmp) as Hmpc.
  destruct (snd_cwnd tp <=? snd_ssthresh tp) eqn:Hleb;
    intros slow src F HF Hn Hp ratio acc; subst slow src F; cbv iota in *.
  - apply Z.leb_le in Hleb.
    destruct (slow_start_run w sk tp meta mtp subs tb acked Hmp Hsum)
      as (r & w' & tp' & Hrun & _ & _ & _ & Hres).
    pose proof (slow_start_ratio _ _ _ _ _ _ _ _ _ _ Hmp Hsum Hrun) as Hst.
    rewrite ratio_used_fresh in Hst, Hres by exact HF.
    rewrite increase_of_spec in Hst, Hres by assumption.
    fold ratio in Hst, Hres. fold acc in Hres.
    exists w'. split.
    + rewrite (cong_avoid_slow_start w sk tp ack acked Hsk Hmpc Hlim Hleb).
      rewrite (run_bind _ _ _ _ _ Hrun). reflexivity.
    + split; [exact Hst|].
      destruct (buffer_reaches acc (mss_cache tp)); tauto.
  - apply Z.leb_gt in Hleb.
    destruct (cong_avoid_run w sk tp meta mtp subs tb ack acked
                Hmp Hsum Hlim Hleb)
      as (w' & tp' & Hrun & _ & _ & Hres).
    pose proof (cong_avoid_ratio _ _ _ _ _ _ _ _ _ _ Hmp Hsum Hlim Hleb Hrun)
      as Hst.
    rewrite ratio_used_fresh in Hst, Hres by exact HF.
    rewrite increase_of_spec in Hst, Hres by assumption.
    fold ratio in Hst, Hres. fold acc in Hres.
    exists w'. split; [exact Hrun|]. split; [exact Hst|].
    destruct (snd_cwnd tp <=? snd_cwnd_cnt tp);
      [destruct (buffer_reaches acc (mss_cache tp))|]; tauto.
Qed.

End RatioClaims.

(** A stale ratio of 999 in the meta socket is overwritten: a slow-start
    call with meta window 10, pooled window 14 and [F = 1460] stores
    [ceil(14600 / 14) = 1043]. *)
Lemma C2_stale_ratio_overwritten :
  let m := set_increase 999 (subflow 0 0 10 20 800) in
  let s1 := subflow 0 0 10 20 800 in
  let w := one_conn 0 m s1 (subflow 0 0 10 20 1600) in
  exists w',
    mptcp_cmtrpv2_cong_avoid 1 0 1 w = Some (tt, w')
    /\ option_map increase (tcp_sk w' 0%nat) = Some 1043.
Proof.
  intros m s1 w.
  destruct (C2_fresh_ratio_of_the_calculator_socket w 1%nat s1 0%nat m
              [1%nat; 2%nat] 80530636 0 1
              ltac:(mp_subflow_by_eval) ltac:(vm_compute; reflexivity)
              eq_refl ltac:(vm_compute; discriminate)
              ltac:(range_by_eval) ltac:(range_by_eval))
    as (w' & Hrun & Hst & _).
  exists w'. split; [exact Hrun|]. exact Hst.
Defined.

(** C2 as stated fails.  With the window of the calling subflow in the
    formula: a slow-start call on a subflow of window 10 whose meta socket
    has window 1 stores [ceil(1 * 1460 / 14) = 105], not
    [ceil(10 * 1460 / 14) = 1043].  With the window of the socket handed to
    the calculator: at window 4194304 the product [cwnd * F] wraps in 32
    bits.  With that product in range: subflows (window 10, round-trip
    time 2) and (window 2147483648, round-trip time 1) make
    [srtt * total_bandwidth] wrap in 64 bits. *)
Lemma C2_ratio_is_not_that_of_the_calling_subflow :
  ~ ratio_claim (fun _ tp _ => snd_cwnd tp) (fun _ => True)
  /\ ~ ratio_claim (fun slow tp mtp => snd_cwnd (if slow then mtp else tp))
                   (fun _ => True)
  /\ ~ ratio_claim (fun slow tp mtp => snd_cwnd (if slow then mtp else tp))
                   (fun n => 0 <= n < 2 ^ 32).
Proof.
  split; [|split]; intros H.
  - set (m := subflow 0 0 1 20 800).
    set (s1 := subflow 0 0 10 20 800).
    destruct (H (one_conn 0 m s1 (subflow 0 0 10 20 1600)) 1%nat s1 0%nat m
                [1%nat; 2%nat] 80530636 0 1
                ltac:(mp_subflow_by_eval) ltac:(vm_compute; reflexivity)
                eq_refl ltac:(vm_compute; discriminate) I)
      as (w' & Hrun & Hst).
    vm_compute in Hrun. injection Hrun as <-.
    vm_compute in Hst. discriminate Hst.
  - set (m := subflow 0 0 10 20 800).
    set (s1 := subflow 0 0 4194304 5 800).
    destruct (H (one_conn 0 m s1 (subflow 0 0 10 20 1600)) 1%nat s1 0%nat m
                [1%nat; 2%nat] 22518024980397 0 1
                ltac:(mp_subflow_by_eval) ltac:(vm_compute; reflexivity)
                eq_refl ltac:(vm_compute; discriminate) I)
      as (w' & Hrun & Hst).
    vm_compute in Hrun. injection Hrun as <-.
    vm_compute in Hst. discriminate Hst.
  - set (m := subflow 0 0 10 20 800).
    set (s1 := subflow 0 0 10 5 2).
    destruct (H (one_conn 0 m s1 (subflow 0 0 2147483648 20 1)) 1%nat s1
                0%nat m [1%nat; 2%nat] 9223372058329612288 0 1
                ltac:(mp_subflow_by_eval) ltac:(vm_compute; reflexivity)
                eq_refl ltac:(vm_compute; discriminate)
                ltac:(range_by_eval))
      as (w' & Hrun & Hst).
    vm_compute in Hrun. injection Hrun as <-.
    vm_compute in Hst. discriminate Hst.
Qed.

(** * The threshold computation *)

Section ThresholdClaims.

Context {stack : tcp_stack}.

(** C3 (as amended): for a subflow with [cwnd >= 1] on a multipath
    connection the threshold computation returns a value between 1 and
    [cwnd] and changes nothing in the machine; and when [cwnd] is below
    the largest [u32] and [total_bandwidth * srtt] fits 64 bits, the value
    is [cwnd - decrease] if that is at least 1 and 1 otherwise, with
    [decrease] the larger of [ceil(((total_bandwidth * srtt) >> 32) / 2)]
    and [ceil(cwnd / 2)]. *)
Theorem C3_ssthresh_formula_and_bounds w sk tp cb subs tb :
  tcp_sk w sk = Some tp -> mpcb tp = Some cb ->
  mpcbs w !! cb = Some subs ->
  sum_bandwidth subs 0 w = Some (tb, w) ->
  in_u32 (snd_cwnd tp) -> in_u32 (srtt_us tp) ->
  1 <= snd_cwnd tp ->
  exists v,
    mptcp_cmtrpv2_calc_ssthresh sk w = Some (v, w)
    /\ 1 <= v <= snd_cwnd tp
    /\ (snd_cwnd tp < 2 ^ 32 - 1 -> tb * srtt_us tp < 2 ^ 64 ->
        v = spec_new_ssthresh (snd_cwnd tp) (srtt_us tp) tb).
Proof.
  intros Hsk Hcb Hsubs Hsum Hc Hs Hpos.
  exists (new_ssthresh_of tp tb). split.
  - eapply calc_ssthresh_run; eassumption.
  - split.
    + apply new_ssthresh_of_bounds. unfold in_u32 in Hc. lia.
    + intros Hlt Hprod. apply new_ssthresh_of_spec.
      * unfold in_u32 in Hc. lia.
      * assert (Htb : in_u64 tb).
        { eapply sum_bandwidth_range; [|exact Hsum]. unfold in_u64. lia. }
        unfold in_u64 in Htb. unfold in_u32 in Hs. split; [|exact Hprod].
        apply Z.mul_nonneg_nonneg; lia.
Qed.

End ThresholdClaims.

(** Two subflows with window 10 and round-trip times 800 and 1600: the
    pooled window of the first is 14, the decrease 7, the threshold 3. *)
Lemma C3_threshold_3_of_window_10 :
  let s1 := subflow 0 0 10 20 800 in
  let w := one_conn 0 (subflow 0 0 10 20 800) s1 (subflow 0 0 10 20 1600) in
  exists v,
    mptcp_cmtrpv2_calc_ssthresh 1 w = Some (v, w)
    /\ 1 <= v <= 10 /\ v = 3.
Proof.
  intros s1 w.
  destruct (C3_ssthresh_formula_and_bounds w 1%nat s1 0%nat [1%nat; 2%nat]
              80530636
              ltac:(vm_compute; reflexivity) eq_refl
              ltac:(vm_compute; reflexivity) ltac:(vm_compute; reflexivity)
              ltac:(range_by_eval) ltac:(range_by_eval)
              ltac:(vm_compute; discriminate))
    as (v & Hrun & Hb & Hv).
  exists v. split; [exact Hrun|]. split; [exact Hb|].
  rewrite Hv; [vm_compute; reflexivity | vm_compute; reflexivity
              | vm_compute; reflexivity].
Defined.

(** C3 as stated fails at the ends of the C types.  With the largest
    [u32] window and no subflow with a round-trip time,
    [DIV_ROUND_UP(cwnd, 2)]
    wraps to 0 and the call returns the window itself, 4294967295, where
    the formula gives 2147483647.  With a window below that, subflows
    (window 10, round-trip time 2) and (window 2147483648, round-trip time
    1) make [total_bandwidth * srtt] pass [2^64]: the call returns 5
    where the formula gives 1. *)
Lemma C3_wraps_break_the_formula :
  ~ (forall w sk tp cb subs tb,
        tcp_sk w sk = Some tp -> mpcb tp = Some cb ->
        mpcbs w !! cb = Some subs ->
        sum_bandwidth subs 0 w = Some (tb, w) ->
        in_u32 (snd_cwnd tp) -> in_u32 (srtt_us tp) ->
        1 <= snd_cwnd tp ->
        mptcp_cmtrpv2_calc_ssthresh sk w
        = Some (spec_new_ssthresh (snd_cwnd tp) (srtt_us tp) tb, w))
  /\ ~ (forall w sk tp cb subs tb,
        tcp_sk w sk = Some tp -> mpcb tp = Some cb ->
        mpcbs w !! cb = Some subs ->
        sum_bandwidth subs 0 w = Some (tb, w) ->
        in_u32 (snd_cwnd tp) -> in_u32 (srtt_us tp) ->
        1 <= snd_cwnd tp -> snd_cwnd tp < 2 ^ 32 - 1 ->
        mptcp_cmtrpv2_calc_ssthresh sk w
        = Some (spec_new_ssthresh (snd_cwnd tp) (srtt_us tp) tb, w)).
Proof.
  split; intros H.
  - set (s1 := subflow 0 0 4294967295 20 0).
    set (w := one_conn 0 (subflow 0 0 10 20 800) s1 (subflow 0 0 10 20 0)).
    specialize (H w 1%nat s1 0%nat [1%nat; 2%nat] 0
                  ltac:(vm_compute; reflexivity) eq_refl
                  ltac:(vm_compute; reflexivity)
                  ltac:(vm_compute; reflexivity)
                  ltac:(range_by_eval) ltac:(range_by_eval)
                  ltac:(vm_compute; discriminate)).
    apply (f_equal (fun r => match r with Some (v, _) => v | None => 0 end))
      in H.
    vm_compute in H. discriminate H.
  - set (s1 := subflow 0 0 10 20 2).
    set (w := one_conn 0 (subflow 0 0 10 20 800) s1
                (subflow 0 0 2147483648 20 1)).
    specialize (H w 1%nat s1 0%nat [1%nat; 2%nat] 9223372058329612288
                  ltac:(vm_compute; reflexivity) eq_refl
                  ltac:(vm_compute; reflexivity)
                  ltac:(vm_compute; reflexivity)
                  ltac:(range_by_eval) ltac:(range_by_eval)
                  ltac:(vm_compute; discriminate)
                  ltac:(vm_compute; reflexivity)).
    apply (f_equal (fun r => match r with Some (v, _) => v | None => 0 end))
      in H.
    vm_compute in H. discriminate H.
Qed.

(** * Single-path sockets *)

Section SinglePathClaims.

Context {stack : tcp_stack}.

(** C4 (as amended): for a socket that is not in multipath mode
    ([mptcp(tp)] false) the threshold operation returns what the
    single-path algorithm returns and changes nothing, and the growth
    operation leaves the socket as the single-path algorithm leaves it:
    same threshold, same window, bit for bit.  A multipath connection
    with exactly one eligible subflow is not such a socket. *)
Theorem C4_single_path_defers_to_reno w sk tp ack acked :
  tcp_sk w sk = Some tp -> mpc tp = false ->
  mptcp_cmtrpv2_ssthresh sk w = Some (tcp_reno_ssthresh tp, w)
  /\ mptcp_cmtrpv2_cong_avoid sk ack acked w
     = Some (tt, store_sock sk (tcp_reno_cong_avoid tp ack acked) w).
Proof.
  intros Hsk Hmpc. split.
  - apply ssthresh_single_path; assumption.
  - apply cong_avoid_single_path; assumption.
Qed.

End SinglePathClaims.

(** A plain socket with window 10: the threshold is the single-path
    algorithm's, and so is the socket after a growth call. *)
Lemma C4_plain_socket_runs_reno :
  let tp := plain 10 20 in
  let w := mk_world 0 (<[5%nat := tp]> ∅) ∅ in
  mptcp_cmtrpv2_ssthresh 5 w = Some (tcp_reno_ssthresh tp, w)
  /\ mptcp_cmtrpv2_cong_avoid 5 0 1 w
     = Some (tt, store_sock 5 (tcp_reno_cong_avoid tp 0 1) w).
Proof.
  intros tp w.
  exact (C4_single_path_defers_to_reno w 5%nat tp 0 1
           ltac:(vm_compute; reflexivity) eq_refl).
Defined.

(** C4 as stated fails for every single-path algorithm.  On a multipath
    connection whose only eligible subflow has window 10 (the second
    subflow has no round-trip time yet) the same growth call leaves window
    10 when the accumulator holds 0 and window 11 when it holds 1400:
    meta window 1 over a pooled window of 9 gives a ratio of 163.  No
    function of the subflow's own socket gives both. *)
Lemma C4_one_eligible_subflow_is_not_reno :
  ~ (exists stack : tcp_stack,
        forall w sk tp meta mtp subs ack acked,
          mp_subflow w sk tp meta mtp subs ->
          eligible_count w subs = 1%nat ->
          (exists w',
              mptcp_cmtrpv2_ssthresh sk w = Some (tcp_reno_ssthresh tp, w'))
          /\ (exists w' tp',
                 mptcp_cmtrpv2_cong_avoid sk ack acked w = Some (tt, w')
                 /\ tcp_sk w' sk = Some tp'
                 /\ snd_cwnd tp' = snd_cwnd (tcp_reno_cong_avoid tp ack acked))).
Proof.
  intros [stack H].
  set (m := subflow 0 0 1 20 800).
  set (s1 := subflow 0 0 10 20 800).
  set (s2 := subflow 0 0 10 20 0).
  destruct (H (one_conn 0 m s1 s2) 1%nat s1 0%nat m [1%nat; 2%nat] 0 1
              ltac:(mp_subflow_by_eval) ltac:(vm_compute; reflexivity))
    as (_ & wa & ta & Hruna & Hska & Hca).
  destruct (H (one_conn 1400 m s1 s2) 1%nat s1 0%nat m [1%nat; 2%nat] 0 1
              ltac:(mp_subflow_by_eval) ltac:(vm_compute; reflexivity))
    as (_ & wb & tb & Hrunb & Hskb & Hcb).
  vm_compute in Hruna. injection Hruna as <-.
  vm_compute in Hska. injection Hska as <-.
  vm_compute in Hrunb. injection Hrunb as <-.
  vm_compute in Hskb. injection Hskb as <-.
  rewrite <- Hcb in Hca. vm_compute in Hca. discriminate Hca.
Qed.

(** * The dispatcher *)

Section DispatcherClaims.

Context {stack : tcp_stack}.

(** C5 (as amended): on a multipath subflow with [cwnd <= ssthresh] the
    dispatcher runs the slow-start engine when the transport reports the
    socket window-limited, and returns without touching anything when it
    does not: the window-limited test comes before the choice between
    slow start and congestion avoidance. *)
Theorem C5_limited_check_precedes_slow_start w sk tp ack acked :
  tcp_sk w sk = Some tp -> mpc tp = true ->
  snd_cwnd tp <= snd_ssthresh tp ->
  mptcp_cmtrpv2_cong_avoid sk ack acked w
  = if cwnd_limited tp
    then (mptcp_cmtrpv2_slow_start sk acked ;;; ret tt) w
    else Some (tt, w).
Proof.
  intros Hsk Hmpc Hle. destruct (cwnd_limited tp) eqn:Hlim.
  - eapply cong_avoid_slow_start; eassumption.
  - eapply cong_avoid_not_limited; eassumption.
Qed.

End DispatcherClaims.

(** An idle subflow below its threshold: the dispatcher leaves the machine
    as it is. *)
Lemma C5_idle_subflow_untouched :
  let s1 := idle (subflow 0 0 10 20 800) in
  let w := one_conn 0 (subflow 0 0 10 20 800) s1 (subflow 0 0 10 20 1600) in
  mptcp_cmtrpv2_cong_avoid 1 0 1 w = Some (tt, w).
Proof.
  intros s1 w.
  exact (C5_limited_check_precedes_slow_start w 1%nat s1 0 1
           ltac:(vm_compute; reflexivity) eq_refl
           ltac:(vm_compute; discriminate)).
Defined.

(** C5 as stated fails: on an idle multipath subflow below its threshold
    the dispatcher does not do what the slow-start engine does. *)
Lemma C5_slow_start_skipped_when_idle :
  ~ (forall w sk tp meta mtp subs ack acked,
        mp_subflow w sk tp meta mtp subs ->
        snd_cwnd tp <= snd_ssthresh tp ->
        mptcp_cmtrpv2_cong_avoid sk ack acked w
        = (mptcp_cmtrpv2_slow_start sk acked ;;; ret tt) w).
Proof.
  intros H.
  set (m := subflow 0 0 10 20 800).
  set (s1 := idle (subflow 0 0 10 20 800)).
  set (s2 := subflow 0 0 10 20 1600).
  specialize (H (one_conn 0 m s1 s2) 1%nat s1 0%nat m [1%nat; 2%nat] 0 1
                ltac:(mp_subflow_by_eval) ltac:(vm_compute; discriminate)).
  apply (f_equal (fun r => match r with
                           | Some (_, w') => snd_buffer w'
                           | None => -1
                           end)) in H.
  vm_compute in H. discriminate H.
Qed.

(** * The fast-retransmit snap *)

Section LossClaims.

Context {stack : tcp_stack}.

(** C6: when the ssthresh operation runs on a multipath subflow whose
    [sacked_out] has reached [dup_acks_rtx] (3), it returns the newly
    computed threshold and leaves the subflow's window equal to it; the
    statement asks nothing about the window being below or above the old
    threshold, so the snap happens in slow start and in congestion
    avoidance alike. *)
Theorem C6_fast_rtx_snaps_cwnd w sk tp meta mtp subs tb :
  mp_subflow w sk tp meta mtp subs ->
  sum_bandwidth subs 0 w = Some (tb, w) ->
  dup_acks_rtx <= sacked_out tp ->
  exists ssthresh w' tp',
    mptcp_cmtrpv2_ssthresh sk w = Some (ssthresh, w')
    /\ ssthresh = new_ssthresh_of tp tb
    /\ tcp_sk w' sk = Some tp'
    /\ snd_cwnd tp' = ssthresh
    /\ snd_ssthresh tp' = snd_ssthresh tp
    /\ snd_buffer w' = snd_buffer w.
Proof.
  intros Hmp Hsum Hsack.
  rewrite (ssthresh_run w sk tp meta mtp subs tb Hmp Hsum).
  change (to_u32 dup_acks_rtx) with dup_acks_rtx.
  apply Z.leb_le in Hsack. rewrite Hsack.
  do 3 eexists. split; [reflexivity|]. split; [reflexivity|].
  rewrite tcp_sk_store_eq. split; [reflexivity|]. simpl. auto.
Qed.

End LossClaims.

(** The spec's scenario C: a subflow with window 14 and three segments
    selectively acknowledged, next to a subflow whose round-trip time is
    not measured yet; the threshold comes out as 7 and the window is 7
    after the call. *)
Lemma C6_scenario_snap_to_7 :
  let s1 := sacked 3 (subflow 0 0 14 20 800) in
  let w := one_conn 0 (subflow 0 0 10 20 800) s1 (subflow 0 0 10 20 0) in
  exists w' tp',
    mptcp_cmtrpv2_ssthresh 1 w = Some (7, w')
    /\ tcp_sk w' 1%nat = Some tp' /\ snd_cwnd tp' = 7.
Proof.
  intros s1 w.
  destruct (C6_fast_rtx_snaps_cwnd w 1%nat s1 0%nat (subflow 0 0 10 20 800)
              [1%nat; 2%nat] 75161927
              ltac:(mp_subflow_by_eval) ltac:(vm_compute; reflexivity)
              ltac:(vm_compute; discriminate))
    as (r & w' & tp' & Hrun & Hr & Hsk & Hcwnd & _).
  exists w', tp'. vm_compute in Hr. subst r. auto.
Defined.

(** * One segment per slow-start call *)

(** C7 (as amended): a slow-start call on a multipath subflow adds the
    ratio to the accumulator; provided the sum is a non-negative [int]
    (no overflow) and the window is below the largest [u32], then: if the
    sum is at least one [mss], the window grows by exactly one segment and
    exactly one [mss] is taken from the accumulator, the rest carried
    forward; otherwise the window is unchanged and the accumulator holds
    the sum. *)
Theorem C7_slow_start_one_segment_per_call w sk tp meta mtp subs tb acked :
  mp_subflow w sk tp meta mtp subs ->
  sum_bandwidth subs 0 w = Some (tb, w) ->
  let inc := ratio_used (increase mtp) mtp (slow_start_factor tp acked) tb in
  let acc := snd_buffer w + inc in
  0 <= acc < 2 ^ 31 ->
  in_u32 (mss_cache tp) ->
  0 <= snd_cwnd tp < 2 ^ 32 - 1 ->
  exists r w' tp',
    mptcp_cmtrpv2_slow_start sk acked w = Some (r, w')
    /\ tcp_sk w' sk = Some tp'
    /\ if mss_cache tp <=? acc
       then snd_cwnd tp' = snd_cwnd tp + 1
            /\ snd_buffer w' = acc - mss_cache tp
       else snd_cwnd tp' = snd_cwnd tp /\ snd_buffer w' = acc.
Proof.
  intros Hmp Hsum inc acc Hacc Hmss Hcwnd.
  destruct (slow_start_run w sk tp meta mtp subs tb acked Hmp Hsum)
    as (r & w' & tp' & Hrun & Hsk & _ & _ & Hres).
  fold inc in Hres.
  rewrite buffer_add_exact in Hres by (unfold in_s32; fold acc; lia).
  fold acc in Hres.
  rewrite buffer_reaches_nonneg in Hres by exact Hacc.
  exists r, w', tp'. split; [exact Hrun|]. split; [exact Hsk|].
  destruct (mss_cache tp <=? acc) eqn:E.
  - apply Z.leb_le in E. destruct Hres as [Hc Hb]. split.
    + rewrite Hc. apply to_u32_id. unfold in_u32. lia.
    + rewrite Hb. apply buffer_sub_exact; unfold in_u32 in Hmss; lia.
  - exact Hres.
Qed.

(** The spec's scenario B: the accumulator holds [mss - 1 = 1459], the
    call adds a ratio of 5 (window 1 of the meta socket against a pooled
    window of 300), and [mss] is 1460: the accumulator ends at 4 and the
    window goes from 300 to 301. *)
Lemma C7_scenario_carry_of_4 :
  let m := subflow 0 0 1 20 800 in
  let s1 := subflow 0 0 300 400 800 in
  let w := one_conn 1459 m s1 (subflow 0 0 10 20 0) in
  exists r w' tp',
    mptcp_cmtrpv2_slow_start 1 1 w = Some (r, w')
    /\ tcp_sk w' 1%nat = Some tp'
    /\ snd_cwnd tp' = 301 /\ snd_buffer w' = 4.
Proof.
  intros m s1 w.
  destruct (C7_slow_start_one_segment_per_call w 1%nat s1 0%nat m
              [1%nat; 2%nat] 1610612736 1
              ltac:(mp_subflow_by_eval) ltac:(vm_compute; reflexivity)
              ltac:(range_by_eval) ltac:(range_by_eval) ltac:(range_by_eval))
    as (r & w' & tp' & Hrun & Hsk & Hres).
  exists r, w', tp'. vm_compute in Hres. tauto.
Defined.

(** C7 as stated fails once the accumulator, an [int], is negative after
    the addition: it is below [mss], yet the call grows the window, since
    the comparison is made on the unsigned value.  Here the accumulator
    is -2000, the ratio 1460 (meta window 1, no round-trip time measured
    on the meta socket), so the sum is -540; the window goes from 10 to
    11.  With a non-negative accumulator it still fails at the largest
    [u32] window, which the increment wraps to 0. *)
Lemma C7_negative_accumulator_grows_cwnd :
  ~ one_segment_claim (fun _ => True)
  /\ ~ one_segment_claim (fun acc => 0 <= acc).
Proof.
  split; intros H.
  - set (m := subflow 0 0 1 20 0).
    set (s1 := subflow 0 0 10 20 800).
    set (s2 := subflow 0 0 10 20 1600).
    destruct (H (one_conn (-2000) m s1 s2) 1%nat s1 0%nat m [1%nat; 2%nat]
                80530636 1
                ltac:(mp_subflow_by_eval) ltac:(vm_compute; reflexivity)
                ltac:(sock_in_range_by_eval) I)
      as (r & w' & tp' & Hrun & Hsk & Hres).
    vm_compute in Hrun. injection Hrun as <- <-.
    vm_compute in Hsk. injection Hsk as <-.
    vm_compute in Hres. destruct Hres as [Hc _]. discriminate Hc.
  - set (m := subflow 0 0 1 20 0).
    set (s1 := subflow 0 0 4294967295 4294967295 800).
    set (s2 := subflow 0 0 10 20 1600).
    destruct (H (one_conn 1459 m s1 s2) 1%nat s1 0%nat m [1%nat; 2%nat]
                23058430113611775 1
                ltac:(mp_subflow_by_eval) ltac:(vm_compute; reflexivity)
                ltac:(sock_in_range_by_eval) ltac:(vm_compute; discriminate))
      as (r & w' & tp' & Hrun & Hsk & Hres).
    vm_compute in Hrun. injection Hrun as <- <-.
    vm_compute in Hsk. injection Hsk as <-.
    vm_compute in Hres. destruct Hres as [Hc _]. discriminate Hc.
Qed.

(** * The window floor *)

Section WindowFloorClaims.

Context {stack : tcp_stack}.

(** C8 (as amended): on a multipath subflow with [cwnd >= 1], a growth
    call through the dispatcher leaves [cwnd >= 1] whenever the subflow
    is above its threshold (congestion avoidance, where growth stops at
    the clamp) or its window is below the largest [u32]; the slow-start
    engine, which does not look at the clamp, keeps [cwnd >= 1] for
    every window below the largest [u32]. *)
Theorem C8_growth_keeps_cwnd_positive
    w sk tp meta mtp subs tb ack acked :
  mp_subflow w sk tp meta mtp subs ->
  sum_bandwidth subs 0 w = Some (tb, w) ->
  sock_in_range tp ->
  1 <= snd_cwnd tp ->
  (snd_ssthresh tp < snd_cwnd tp \/ snd_cwnd tp < 2 ^ 32 - 1) ->
  (exists w' tp',
      mptcp_cmtrpv2_cong_avoid sk ack acked w = Some (tt, w')
      /\ tcp_sk w' sk = Some tp' /\ 1 <= snd_cwnd tp')
  /\ (snd_cwnd tp < 2 ^ 32 - 1 ->
      exists r w' tp',
        mptcp_cmtrpv2_slow_start sk acked w = Some (r, w')
        /\ tcp_sk w' sk = Some tp' /\ 1 <= snd_cwnd tp').
Proof.
  intros Hmp Hsum Hrg Hpos Hdom.
  assert (Hss : snd_cwnd tp < 2 ^ 32 - 1 ->
                exists r w' tp',
                  mptcp_cmtrpv2_slow_start sk acked w = Some (r, w')
                  /\ tcp_sk w' sk = Some tp' /\ 1 <= snd_cwnd tp').
  { intros Hlt.
    destruct (slow_start_run w sk tp meta mtp subs tb acked Hmp Hsum)
      as (r & w' & tp' & Hrun & Hsk & _ & _ & Hres).
    exists r, w', tp'. split; [exact Hrun|]. split; [exact Hsk|].
    destruct (buffer_reaches _ _); destruct Hres as [Hc _]; rewrite Hc;
      [|lia].
    rewrite to_u32_id; [lia|]. unfold in_u32. lia. }
  split; [|exact Hss].
  pose proof (mp_sock _ _ _ _ _ _ Hmp) as Hsk.
  pose proof (mp_mpc _ _ _ _ _ _ Hmp) as Hmpc.
  destruct (cwnd_limited tp) eqn:Hlim.
  - destruct (Z_le_gt_dec (snd_cwnd tp) (snd_ssthresh tp)) as [Hle|Hgt].
    + destruct Hdom as [Habove|Hlt]; [lia|].
      destruct (Hss Hlt) as (r & w' & tp' & Hrun & Hsk' & Hge).
      exists w', tp'. split; [|auto].
      rewrite (cong_avoid_slow_start w sk tp ack acked Hsk Hmpc Hlim Hle).
      rewrite (run_bind _ _ _ _ _ Hrun). reflexivity.
    + destruct (cong_avoid_run w sk tp meta mtp subs tb ack acked
                  Hmp Hsum Hlim ltac:(lia))
        as (w' & tp' & Hrun & Hsk' & _ & Hres).
      exists w', tp'. split; [exact Hrun|]. split; [exact Hsk'|].
      destruct Hrg as [[? ?] _ _ [? ?] _ _ _ _].
      destruct (snd_cwnd tp <=? snd_cwnd_cnt tp).
      * destruct (buffer_reaches _ _); destruct Hres as [Hc _]; rewrite Hc;
          [|lia].
        destruct (snd_cwnd tp <? snd_cwnd_clamp tp) eqn:E; [|lia].
        apply Z.ltb_lt in E. rewrite to_u32_id; [lia|]. unfold in_u32. lia.
      * destruct Hres as [Hc _]. rewrite Hc. lia.
  - exists w, tp. split; [|auto].
    eapply cong_avoid_not_limited; eassumption.
Qed.

End WindowFloorClaims.

(** A subflow in congestion avoidance with window 10 keeps a positive
    window through a growth call. *)
Lemma C8_window_10_stays_positive :
  let m := subflow 0 0 10 20 800 in
  let s1 := subflow 0 0 10 5 800 in
  let w := one_conn 0 m s1 (subflow 0 0 10 20 1600) in
  exists w' tp',
    mptcp_cmtrpv2_cong_avoid 1 0 1 w = Some (tt, w')
    /\ tcp_sk w' 1%nat = Some tp' /\ 1 <= snd_cwnd tp'.
Proof.
  intros m s1 w.
  exact (proj1 (C8_growth_keeps_cwnd_positive w 1%nat s1 0%nat m
                  [1%nat; 2%nat] 80530636 0 1
                  ltac:(mp_subflow_by_eval) ltac:(vm_compute; reflexivity)
                  ltac:(sock_in_range_by_eval)
                  ltac:(vm_compute; discriminate)
                  ltac:(left; vm_compute; reflexivity))).
Defined.

(** C8 as stated fails in slow start at the largest [u32] window: the
    engine increments without looking at the clamp and the window wraps to
    0.  Here window and threshold are 4294967295, the accumulator holds
    1459 and the ratio is 1460. *)
Lemma C8_slow_start_wraps_cwnd_to_zero :
  ~ (forall w sk tp meta mtp subs ack acked,
        mp_subflow w sk tp meta mtp subs ->
        sock_in_range tp ->
        1 <= snd_cwnd tp ->
        exists w' tp',
          mptcp_cmtrpv2_cong_avoid sk ack acked w = Some (tt, w')
          /\ tcp_sk w' sk = Some tp' /\ 1 <= snd_cwnd tp').
Proof.
  intros H.
  set (m := subflow 0 0 1 20 0).
  set (s1 := subflow 0 0 4294967295 4294967295 800).
  set (s2 := subflow 0 0 10 20 1600).
  destruct (H (one_conn 1459 m s1 s2) 1%nat s1 0%nat m [1%nat; 2%nat] 0 1
              ltac:(mp_subflow_by_eval) ltac:(sock_in_range_by_eval)
              ltac:(vm_compute; discriminate))
    as (w' & tp' & Hrun & Hsk & Hge).
  vm_compute in Hrun. injection Hrun as <-.
  vm_compute in Hsk. injection Hsk as <-.
  vm_compute in Hge. apply Hge. reflexivity.
Qed.

(** * Growth at the clamp *)

Section ClampClaims.

Context {stack : tcp_stack}.

(** C9: in a congestion-avoidance call on a multipath subflow with
    [cwnd_cnt >= cwnd], the accumulator at least one [mss] after the
    addition and the window already at or above the clamp, the call takes
    one [mss] from the accumulator and resets [cwnd_cnt] to 0 while the
    window stays as it is: the credit is spent and nothing grows. *)
Theorem C9_clamped_window_consumes_credit
    w sk tp meta mtp subs tb ack acked :
  mp_subflow w sk tp meta mtp subs ->
  sum_bandwidth subs 0 w = Some (tb, w) ->
  cwnd_limited tp = true ->
  snd_ssthresh tp < snd_cwnd tp ->
  snd_cwnd tp <= snd_cwnd_cnt tp ->
  snd_cwnd_clamp tp <= snd_cwnd tp ->
  let inc := ratio_used (increase mtp) tp (mss_cache tp) tb in
  let acc := buffer_add (snd_buffer w) inc in
  0 <= mss_cache tp <= acc ->
  exists w' tp',
    mptcp_cmtrpv2_cong_avoid sk ack acked w = Some (tt, w')
    /\ tcp_sk w' sk = Some tp'
    /\ snd_cwnd tp' = snd_cwnd tp
    /\ snd_cwnd_cnt tp' = 0
    /\ snd_buffer w' = acc - mss_cache tp.
Proof.
  intros Hmp Hsum Hlim Hgt Hcnt Hclamp inc acc Hreach.
  destruct (cong_avoid_run w sk tp meta mtp subs tb ack acked
              Hmp Hsum Hlim Hgt) as (w' & tp' & Hrun & Hsk' & _ & Hres).
  fold inc in Hres. fold acc in Hres.
  assert (Hacc : acc < 2 ^ 31).
  { pose proof (to_s32_range (snd_buffer w + inc)) as Hr.
    unfold acc. rewrite buffer_add_low_bits. unfold in_s32 in Hr. lia. }
  apply Z.leb_le in Hcnt. rewrite Hcnt in Hres.
  rewrite buffer_reaches_nonneg in Hres by lia.
  replace (mss_cache tp <=? acc) with true in Hres
    by (symmetry; apply Z.leb_le; lia).
  apply Z.ltb_ge in Hclamp. rewrite Hclamp in Hres.
  destruct Hres as (Hc & Hn & Hb).
  exists w', tp'. repeat (split; [assumption|]).
  rewrite Hb. apply buffer_sub_exact; lia.
Qed.

End ClampClaims.

(** A subflow at its clamp of 10 with a full [cwnd_cnt]: the accumulator
    goes from 1459 over 2502 to 1042, the counter to 0, the window stays
    at 10. *)
Lemma C9_clamp_10_loses_credit :
  let m := subflow 0 0 10 20 800 in
  let s1 := set_snd_cwnd_cnt 10 (clamped 10 (subflow 0 0 10 5 800)) in
  let w := one_conn 1459 m s1 (subflow 0 0 10 20 1600) in
  exists w' tp',
    mptcp_cmtrpv2_cong_avoid 1 0 1 w = Some (tt, w')
    /\ tcp_sk w' 1%nat = Some tp'
    /\ snd_cwnd tp' = 10 /\ snd_cwnd_cnt tp' = 0 /\ snd_buffer w' = 1042.
Proof.
  intros m s1 w.
  destruct (C9_clamped_window_consumes_credit w 1%nat s1 0%nat m
              [1%nat; 2%nat] 80530636 0 1
              ltac:(mp_subflow_by_eval) ltac:(vm_compute; reflexivity)
              eq_refl ltac:(vm_compute; reflexivity)
              ltac:(vm_compute; discriminate)
              ltac:(vm_compute; discriminate)
              ltac:(vm_compute; split; discriminate))
    as (w' & tp' & Hrun & Hsk & Hc & Hn & Hb).
  exists w', tp'. vm_compute in Hc, Hb. auto.
Defined.

(** * The accumulator as a 32-bit integer *)

Section AccumulatorClaims.

Context {stack : tcp_stack}.

(** C10: the accumulator is an [int] and the ratio a [u64]; a growth
    call on a window-limited multipath subflow, in slow start or in
    congestion avoidance, leaves in the accumulator the low 32 bits of
    accumulator plus ratio read as a signed number, less one [mss] when
    the threshold test passes.  For a non-negative accumulator and a
    ratio with bit 31 set (from [2^31] up to the largest [u32]) that
    sum is negative or below the old accumulator. *)
Theorem C10_accumulator_keeps_low_32_bits_signed
    w sk tp meta mtp subs tb ack acked :
  mp_subflow w sk tp meta mtp subs ->
  sum_bandwidth subs 0 w = Some (tb, w) ->
  cwnd_limited tp = true ->
  let inc :=
    if snd_cwnd tp <=? snd_ssthresh tp
    then ratio_used (increase mtp) mtp (slow_start_factor tp acked) tb
    else ratio_used (increase mtp) tp (mss_cache tp) tb in
  let r := (snd_buffer w + inc) mod 2 ^ 32 in
  let acc := if r <? 2 ^ 31 then r else r - 2 ^ 32 in
  exists w',
    mptcp_cmtrpv2_cong_avoid sk ack acked w = Some (tt, w')
    /\ (snd_buffer w' = acc
        \/ snd_buffer w' = buffer_sub acc (mss_cache tp))
    /\ (0 <= snd_buffer w < 2 ^ 31 -> 2 ^ 31 <= inc < 2 ^ 32 ->
        acc = snd_buffer w + inc - 2 ^ 32
        /\ (acc < snd_buffer w \/ acc < 0)).
Proof.
  intros Hmp Hsum Hlim.
  pose proof (mp_sock _ _ _ _ _ _ Hmp) as Hsk.
  pose proof (mp_mpc _ _ _ _ _ _ Hmp) as Hmpc.
  destruct (snd_cwnd tp <=? snd_ssthresh tp) eqn:Hleb; intros inc r acc;
    assert (Hacc : acc = to_s32 (snd_buffer w + inc)) by reflexivity;
    assert (Hwrap : 0 <= snd_buffer w < 2 ^ 31 -> 2 ^ 31 <= inc < 2 ^ 32 ->
                    acc = snd_buffer w + inc - 2 ^ 32
                    /\ (acc < snd_buffer w \/ acc < 0))
      by (intros Hb Hi; rewrite Hacc, to_s32_wrap by lia; lia);
    clearbody acc; clear r.
  - apply Z.leb_le in Hleb.
    destruct (slow_start_run w sk tp meta mtp subs tb acked Hmp Hsum)
      as (r & w' & tp' & Hrun & _ & _ & _ & Hres).
    fold inc in Hres. rewrite buffer_add_low_bits, <- Hacc in Hres.
    exists w'. split.
    + rewrite (cong_avoid_slow_start w sk tp ack acked Hsk Hmpc Hlim Hleb).
      rewrite (run_bind _ _ _ _ _ Hrun). reflexivity.
    + split; [|exact Hwrap].
      destruct (buffer_reaches acc (mss_cache tp)); tauto.
  - apply Z.leb_gt in Hleb.
    destruct (cong_avoid_run w sk tp meta mtp subs tb ack acked
                Hmp Hsum Hlim Hleb)
      as (w' & tp' & Hrun & _ & _ & Hres).
    fold inc in Hres. rewrite buffer_add_low_bits, <- Hacc in Hres.
    exists w'. split; [exact Hrun|]. split; [|exact Hwrap].
    destruct (snd_cwnd tp <=? snd_cwnd_cnt tp);
      [destruct (buffer_reaches acc (mss_cache tp))|]; tauto.
Qed.

End AccumulatorClaims.

(** A ratio with bit 31 set: the meta socket has a window of 2097152
    segments and no round-trip time measured, so a slow-start call stores
    the ratio 2097152 * 1460 = 3061841920; the accumulator goes from 0 to
    a negative number. *)
Lemma C10_ratio_with_bit_31_turns_accumulator_negative :
  let m := subflow 0 0 2097152 20 0 in
  let s1 := subflow 0 0 10 20 800 in
  let w := one_conn 0 m s1 (subflow 0 0 10 20 1600) in
  exists w',
    mptcp_cmtrpv2_cong_avoid 1 0 1 w = Some (tt, w') /\ snd_buffer w' < 0.
Proof.
  intros m s1 w.
  destruct (C10_accumulator_keeps_low_32_bits_signed w 1%nat s1 0%nat m
              [1%nat; 2%nat] 80530636 0 1
              ltac:(mp_subflow_by_eval) ltac:(vm_compute; reflexivity)
              eq_refl)
    as (w' & Hrun & Hbuf & Hwrap).
  exists w'. split; [exact Hrun|].
  destruct (Hwrap ltac:(range_by_eval) ltac:(range_by_eval)) as [_ _].
  destruct Hbuf as [Hb | Hb]; rewrite Hb; vm_compute; reflexivity.
Defined.

(** * Further properties of the module *)

(** ** The bandwidth sum *)

Lemma scale_exact cwnd :
  in_u32 cwnd -> mptcp_cmtrpv2_scale cwnd rpv2_scale = cwnd * 2 ^ 32.
Proof.
  intros H. unfold mptcp_cmtrpv2_scale, rpv2_scale.
  rewrite Z.shiftl_mul_pow2 by lia. apply to_u64_id.
  unfold in_u32 in H. unfold in_u64. lia.
Qed.

Lemma to_u64_add_l a b : to_u64 (to_u64 a + b) = to_u64 (a + b).
Proof.
  unfold to_u64, to_unsigned. apply Zplus_mod_idemp_l.
Qed.

Lemma subflows_in_range_mapped w subs :
  subflows_in_range w subs -> subflows_mapped w subs = true.
Proof.
  unfold subflows_in_range, subflows_mapped. intros H.
  apply forallb_forall. intros s Hs.
  rewrite Forall_forall in H. destruct (H s) as (tp & -> & _).
  - apply list_elem_of_In, Hs.
  - reflexivity.
Qed.

(** The loop of lines 66-73 and 98-105 in closed form. *)
Lemma sum_bandwidth_closed subs : forall t w,
  in_u64 t -> subflows_in_range w subs ->
  sum_bandwidth subs t w = Some (to_u64 (t + pooled_bandwidth w subs), w).
Proof.
  induction subs as [|s rest IH]; intros t w Ht Hr; simpl.
  - unfold ret. rewrite Z.add_0_r, to_u64_id by exact Ht. reflexivity.
  - apply Forall_cons in Hr as [(tp & Hs & Hrg) Hrest].
    rewrite (run_bind _ _ _ _ _ (run_load _ _ _ Hs)), Hs.
    unfold bandwidth_estimate, mptcp_cmtrpv2_sk_can_send.
    destruct (sk_can_send tp && negb (srtt_us tp =? 0)).
    + rewrite IH by (apply to_u64_range || exact Hrest).
      rewrite scale_exact by apply Hrg.
      rewrite to_u64_add_l, Z.add_assoc. reflexivity.
    + rewrite IH by assumption. reflexivity.
Qed.

Lemma pooled_bandwidth_perm w subs subs' :
  Permutation subs subs' ->
  pooled_bandwidth w subs = pooled_bandwidth w subs'.
Proof.
  induction 1 as [|x l l' _ IH|x y l|l l' l'' _ IH1 _ IH2]; simpl.
  - reflexivity.
  - rewrite IH. reflexivity.
  - destruct (tcp_sk w x), (tcp_sk w y); lia.
  - congruence.
Qed.

(** X1: the bandwidth loop returns, leaving the machine as it was, the sum
    over the connection list of [cwnd * 2^32 / srtt] for the subflows that
    can send and have a round-trip time, reduced modulo [2^64]; a subflow
    that cannot send or has no round-trip time adds nothing. *)
Theorem X1_total_bandwidth_sums_eligible_estimates w subs :
  subflows_in_range w subs ->
  sum_bandwidth subs 0 w = Some ((pooled_bandwidth w subs) mod 2 ^ 64, w).
Proof.
  intros Hr.
  rewrite (sum_bandwidth_closed subs 0 w) by (unfold in_u64; lia || exact Hr).
  reflexivity.
Qed.

(** Windows 10 and 10 with round-trip times 800 and 1600 pool to
    53687091 + 26843545. *)
Lemma X1_two_subflows_pool :
  let w := one_conn 0 (subflow 0 0 10 20 800)
             (subflow 0 0 10 20 800) (subflow 0 0 10 20 1600) in
  sum_bandwidth [1%nat; 2%nat] 0 w = Some (80530636, w).
Proof.
  intros w.
  exact (X1_total_bandwidth_sums_eligible_estimates w [1%nat; 2%nat]
           ltac:(repeat constructor;
                 (eexists; split;
                  [vm_compute; reflexivity | sock_in_range_by_eval]))).
Defined.

(** X2: the bandwidth sum does not depend on the order in which the
    connection list holds the subflows. *)
Theorem X2_total_bandwidth_ignores_list_order w subs subs' :
  Permutation subs subs' ->
  subflows_in_range w subs ->
  sum_bandwidth subs' 0 w = sum_bandwidth subs 0 w.
Proof.
  intros Hp Hr.
  assert (Hr' : subflows_in_range w subs').
  { unfold subflows_in_range in *. rewrite <- Hp. exact Hr. }
  rewrite (sum_bandwidth_closed subs 0 w) by (unfold in_u64; lia || exact Hr).
  rewrite (sum_bandwidth_closed subs' 0 w)
    by (unfold in_u64; lia || exact Hr').
  rewrite (pooled_bandwidth_perm w subs subs' Hp). reflexivity.
Qed.

Lemma X2_swapped_list_same_sum :
  let w := one_conn 0 (subflow 0 0 10 20 800)
             (subflow 0 0 10 20 800) (subflow 0 0 10 20 1600) in
  sum_bandwidth [2%nat; 1%nat] 0 w = sum_bandwidth [1%nat; 2%nat] 0 w.
Proof.
  intros w.
  exact (X2_total_bandwidth_ignores_list_order w [1%nat; 2%nat]
           [2%nat; 1%nat] (perm_swap _ _ _)
           ltac:(repeat constructor;
                 (eexists; split;
                  [vm_compute; reflexivity | sock_in_range_by_eval]))).
Defined.

(** ** The growth-ratio calculator *)

Lemma sum_bandwidth_none_eligible subs : forall t w,
  none_eligible w subs -> sum_bandwidth subs t w = Some (t, w).
Proof.
  induction subs as [|s rest IH]; intros t w H; simpl.
  - reflexivity.
  - apply Forall_cons in H as [(tp & Hs & Hno) Hrest].
    rewrite (run_bind _ _ _ _ _ (run_load _ _ _ Hs)), Hno.
    apply IH, Hrest.
Qed.

Lemma denominator_range x :
  0 <= Z.shiftr (to_u64 x) rpv2_scale < 2 ^ 32.
Proof.
  pose proof (to_u64_range x) as H. unfold in_u64 in H.
  unfold rpv2_scale. rewrite Z.shiftr_div_pow2 by lia. split.
  - apply Z.div_pos; lia.
  - apply Z.div_lt_upper_bound; lia.
Qed.

Lemma increase_of_bounds tp F tb :
  let n := to_u32 (snd_cwnd tp * F) in
  0 <= increase_of tp F tb <= n /\ (n <> 0 -> 1 <= increase_of tp F tb).
Proof.
  intros n. unfold increase_of. fold n.
  pose proof (to_u32_range (snd_cwnd tp * F)) as Hn. fold n in Hn.
  unfold in_u32 in Hn.
  pose proof (denominator_range (srtt_us tp * tb)) as Hx.
  set (x := Z.shiftr (to_u64 (srtt_us tp * tb)) rpv2_scale) in *.
  set (d := if x =? 0 then 1 else x).
  assert (Hd : 1 <= d < 2 ^ 32).
  { unfold d. destruct (x =? 0) eqn:E; [lia|]. apply Z.eqb_neq in E. lia. }
  rewrite DIV_ROUND_UP_ceil by lia. unfold ceil_div.
  split; [split|].
  - apply Z.div_pos; lia.
  - destruct (Z.eq_dec n 0) as [->|Hne].
    + rewrite Z.div_small by lia. lia.
    + apply Z.div_le_upper_bound; [lia|]. nia.
  - intros Hne. apply Z.div_le_lower_bound; lia.
Qed.

(** X3: whenever the calculator runs on a multipath socket with a non-zero
    factor, the ratio it leaves in the meta socket lies between 0 and the
    32-bit product [cwnd * factor], so below [2^32], and is at least 1
    unless that product is 0. *)
Theorem X3_stored_ratio_bounded_by_product
    w sk tp cb subs tb meta mtp factor :
  tcp_sk w sk = Some tp -> mpcb tp = Some cb -> factor <> 0 ->
  mpcbs w !! cb = Some subs -> sum_bandwidth subs 0 w = Some (tb, w) ->
  meta_sk tp = Some meta -> tcp_sk w meta = Some mtp ->
  exists w' mtp',
    mptcp_cmtrpv2_calc_increase_ratio sk factor w = Some (tt, w')
    /\ tcp_sk w' meta = Some mtp'
    /\ 0 <= increase mtp' <= to_u32 (snd_cwnd tp * factor)
    /\ increase mtp' < 2 ^ 32
    /\ (to_u32 (snd_cwnd tp * factor) <> 0 -> 1 <= increase mtp').
Proof.
  intros Hsk Hcb Hf Hsubs Hsum Hmeta Hmsk.
  rewrite (calc_increase_ratio_run w sk tp cb subs tb meta mtp factor)
    by assumption.
  do 2 eexists. split; [reflexivity|].
  rewrite tcp_sk_store_eq. split; [reflexivity|]. simpl.
  destruct (increase_of_bounds tp factor tb) as [Hb Hpos].
  pose proof (to_u32_range (snd_cwnd tp * factor)) as Hr.
  unfold in_u32 in Hr. cbv zeta in Hb, Hpos. repeat split; lia.
Qed.

Lemma X3_ratio_1043_within_14600 :
  let m := subflow 0 0 10 20 800 in
  let w := one_conn 0 m (subflow 0 0 10 20 800) (subflow 0 0 10 20 1600) in
  exists w' mtp',
    mptcp_cmtrpv2_calc_increase_ratio 1 1460 w = Some (tt, w')
    /\ tcp_sk w' 0%nat = Some mtp'
    /\ 0 <= increase mtp' <= 14600.
Proof.
  intros m w.
  destruct (X3_stored_ratio_bounded_by_product w 1%nat
              (subflow 0 0 10 20 800) 0%nat [1%nat; 2%nat] 80530636
              0%nat m 1460
              ltac:(vm_compute; reflexivity) eq_refl
              ltac:(vm_compute; discriminate)
              ltac:(vm_compute; reflexivity) ltac:(vm_compute; reflexivity)
              eq_refl ltac:(vm_compute; reflexivity))
    as (w' & mtp' & Hrun & Hm & Hb & _).
  exists w', mtp'. auto.
Defined.

(** X4: when no subflow of the connection list can send with a measured
    round-trip time (an empty list included), the pooled bandwidth is 0,
    the denominator falls back to 1 and the calculator stores the 32-bit
    product [cwnd * factor] itself as the ratio. *)
Theorem X4_no_eligible_subflow_stores_product
    w sk tp cb subs meta mtp factor :
  tcp_sk w sk = Some tp -> mpcb tp = Some cb -> factor <> 0 ->
  mpcbs w !! cb = Some subs -> none_eligible w subs ->
  meta_sk tp = Some meta -> tcp_sk w meta = Some mtp ->
  mptcp_cmtrpv2_calc_increase_ratio sk factor w
  = Some (tt, store_sock meta
                (set_increase (to_u32 (snd_cwnd tp * factor)) mtp) w).
Proof.
  intros Hsk Hcb Hf Hsubs Hnone Hmeta Hmsk.
  rewrite (calc_increase_ratio_run w sk tp cb subs 0 meta mtp factor)
    by (try assumption; apply sum_bandwidth_none_eligible, Hnone).
  unfold increase_of. rewrite Z.mul_0_r.
  change (Z.shiftr (to_u64 0) rpv2_scale =? 0) with true. cbv iota.
  pose proof (to_u32_range (snd_cwnd tp * factor)) as Hr.
  unfold in_u32 in Hr.
  rewrite DIV_ROUND_UP_ceil by lia. unfold ceil_div.
  rewrite Z.add_simpl_r, Z.div_1_r. reflexivity.
Qed.

(** Two subflows without round-trip time: window 10 and factor 1460 give
    the ratio 14600. *)
Lemma X4_unmeasured_subflows_ratio_14600 :
  let m := subflow 0 0 10 20 800 in
  let s1 := subflow 0 0 10 20 0 in
  let w := one_conn 0 m s1 (subflow 0 0 10 20 0) in
  mptcp_cmtrpv2_calc_increase_ratio 1 1460 w
  = Some (tt, store_sock 0 (set_increase 14600 m) w).
Proof.
  intros m s1 w.
  exact (X4_no_eligible_subflow_stores_product w 1%nat s1 0%nat
           [1%nat; 2%nat] 0%nat m 1460
           ltac:(vm_compute; reflexivity) eq_refl
           ltac:(vm_compute; discriminate)
           ltac:(vm_compute; reflexivity)
           ltac:(repeat constructor;
                 (eexists; split; vm_compute; reflexivity))
           eq_refl ltac:(vm_compute; reflexivity)).
Defined.

(** ** The slow-start engine *)

Lemma slow_start_factor_zero tp acked :
  in_u32 (mss_cache tp) -> acked = 0 \/ mss_cache tp = 0 ->
  slow_start_factor tp acked = 0.
Proof.
  intros Hm [-> | E]; unfold slow_start_factor, in_u32 in *.
  - rewrite Z.mul_0_l. change (to_u32 0) with 0. lia.
  - rewrite E, Z.mul_0_r. reflexivity.
Qed.

(** X5: a slow-start call whose reward factor is 0 (nothing acknowledged,
    or a zero segment size) computes no ratio: the meta socket keeps the
    ratio an earlier call left there, and that old ratio is added to the
    accumulator, so the window can still grow by one. *)
Theorem X5_zero_factor_reuses_stored_ratio w sk tp meta mtp subs acked :
  mp_subflow w sk tp meta mtp subs ->
  slow_start_factor tp acked = 0 ->
  let acc := buffer_add (snd_buffer w) (increase mtp) in
  exists r w' tp',
    mptcp_cmtrpv2_slow_start sk acked w = Some (r, w')
    /\ option_map increase (tcp_sk w' meta) = Some (increase mtp)
    /\ tcp_sk w' sk = Some tp'
    /\ if buffer_reaches acc (mss_cache tp)
       then snd_cwnd tp' = to_u32 (snd_cwnd tp + 1)
            /\ snd_buffer w' = buffer_sub acc (mss_cache tp)
       else snd_cwnd tp' = snd_cwnd tp /\ snd_buffer w' = acc.
Proof.
  intros Hmp HF acc.
  destruct (sum_bandwidth_returns subs 0 w (mp_mapped _ _ _ _ _ _ Hmp))
    as (tb & Hsum).
  destruct (slow_start_run w sk tp meta mtp subs tb acked Hmp Hsum)
    as (r & w' & tp' & Hrun & Hsk & _ & _ & Hres).
  pose proof (slow_start_ratio _ _ _ _ _ _ _ _ _ _ Hmp Hsum Hrun) as Hst.
  rewrite HF in Hst, Hres. unfold ratio_used in Hst, Hres.
  change (0 =? 0) with true in Hst, Hres. cbv iota in Hst, Hres.
  exists r, w', tp'. auto.
Qed.

(** Nothing acknowledged, a ratio of 1043 left from before, accumulator
    1459: the window still goes from 10 to 11. *)
Lemma X5_empty_ack_grows_window :
  let m := set_increase 1043 (subflow 0 0 10 20 800) in
  let s1 := subflow 0 0 10 20 800 in
  let w := one_conn 1459 m s1 (subflow 0 0 10 20 1600) in
  exists r w' tp',
    mptcp_cmtrpv2_slow_start 1 0 w = Some (r, w')
    /\ option_map increase (tcp_sk w' 0%nat) = Some 1043
    /\ tcp_sk w' 1%nat = Some tp'
    /\ snd_cwnd tp' = 11 /\ snd_buffer w' = 1042.
Proof.
  intros m s1 w.
  destruct (X5_zero_factor_reuses_stored_ratio w 1%nat s1 0%nat m
              [1%nat; 2%nat] 0
              ltac:(mp_subflow_by_eval) ltac:(vm_compute; reflexivity))
    as (r & w' & tp' & Hrun & Hst & Hsk & Hres).
  exists r, w', tp'. vm_compute in Hres. tauto.
Defined.

Lemma yields_ret {A} (v : A) : yields v (ret v).
Proof. intros w a w' H. unfold ret in H. congruence. Qed.

Lemma yields_bind {A B} (v : B) (m : M A) (k : A -> M B) :
  (forall a, yields v (k a)) -> yields v (bind m k).
Proof.
  intros Hk w b w' H. unfold bind in H.
  destruct (m w) as [[a w1]|]; [|discriminate]. exact (Hk a w1 b w' H).
Qed.

(** The value a slow-start call returns is fixed before the ratio is
    looked at. *)
Lemma slow_start_returns w sk tp acked r w' :
  tcp_sk w sk = Some tp ->
  mptcp_cmtrpv2_slow_start sk acked w = Some (r, w') ->
  r = let cwnd := to_u32 (snd_cwnd tp + acked) in
      let cwnd := if snd_ssthresh tp <? cwnd
                  then to_u32 (snd_ssthresh tp + 1) else cwnd in
      to_u32 (acked - to_u32 (cwnd - snd_cwnd tp)).
Proof.
  intros Hsk Hrun. unfold mptcp_cmtrpv2_slow_start in Hrun.
  rewrite (run_bind _ _ _ _ _ (run_load _ _ _ Hsk)) in Hrun.
  revert Hrun.
  match goal with
  | |- ?m _ = _ -> _ = ?v => assert (Hy : yields v m)
  end.
  { repeat (apply yields_bind; intros). apply yields_ret. }
  apply Hy.
Qed.

(** X6: a slow-start call on a multipath subflow at or below its
    threshold returns the acknowledged segments that would carry the
    window past [ssthresh + 1]: 0 when [cwnd + acked <= ssthresh], and
    [cwnd + acked - ssthresh - 1] otherwise, although the window itself
    moves by one segment at most. *)
Theorem X6_slow_start_returns_segments_past_threshold
    w sk tp meta mtp subs acked :
  mp_subflow w sk tp meta mtp subs ->
  in_u32 (snd_cwnd tp) -> in_u32 (snd_ssthresh tp) -> 0 <= acked ->
  snd_cwnd tp <= snd_ssthresh tp ->
  snd_cwnd tp + acked < 2 ^ 32 ->
  exists w',
    mptcp_cmtrpv2_slow_start sk acked w
    = Some (Z.max 0 (snd_cwnd tp + acked - snd_ssthresh tp - 1), w').
Proof.
  intros Hmp Hc Hs Ha Hle Hsum32.
  destruct (sum_bandwidth_returns subs 0 w (mp_mapped _ _ _ _ _ _ Hmp))
    as (tb & Hsum).
  destruct (slow_start_run w sk tp meta mtp subs tb acked Hmp Hsum)
    as (r & w' & tp' & Hrun & _).
  exists w'. rewrite Hrun. f_equal. f_equal.
  rewrite (slow_start_returns _ _ _ _ _ _ (mp_sock _ _ _ _ _ _ Hmp) Hrun).
  unfold in_u32 in *. cbv zeta.
  rewrite (to_u32_id (snd_cwnd tp + acked)) by (unfold in_u32; lia).
  destruct (snd_ssthresh tp <? snd_cwnd tp + acked) eqn:E.
  - apply Z.ltb_lt in E.
    rewrite (to_u32_id (snd_ssthresh tp + 1)) by (unfold in_u32; lia).
    rewrite (to_u32_id (snd_ssthresh tp + 1 - snd_cwnd tp))
      by (unfold in_u32; lia).
    rewrite to_u32_id by (unfold in_u32; lia). lia.
  - apply Z.ltb_ge in E.
    rewrite (to_u32_id (snd_cwnd tp + acked - snd_cwnd tp))
      by (unfold in_u32; lia).
    rewrite to_u32_id by (unfold in_u32; lia). lia.
Qed.

(** Window 18, threshold 20, 5 segments acknowledged: 2 are returned. *)
Lemma X6_two_segments_past_threshold :
  let m := subflow 0 0 10 20 800 in
  let s1 := subflow 0 0 18 20 800 in
  let w := one_conn 0 m s1 (subflow 0 0 10 20 1600) in
  exists w', mptcp_cmtrpv2_slow_start 1 5 w = Some (2, w').
Proof.
  intros m s1 w.
  exact (X6_slow_start_returns_segments_past_threshold w 1%nat s1 0%nat m
           [1%nat; 2%nat] 5
           ltac:(mp_subflow_by_eval) ltac:(range_by_eval)
           ltac:(range_by_eval) ltac:(vm_compute; discriminate)
           ltac:(vm_compute; discriminate) ltac:(vm_compute; reflexivity)).
Defined.

(** ** What the module leaves alone *)

Section Frames.

Context {X : Type} (f : tcp_sock -> X) (S : sock_ptr -> Prop).

Lemma fo_ret {A} (a : A) : frame_on f S (ret a).
Proof. intros w b w' H. unfold ret in H. injection H as _ <-. auto. Qed.

Lemma fo_bind {A B} (m : M A) (k : A -> M B) :
  frame_on f S m -> (forall a, frame_on f S (k a)) ->
  frame_on f S (bind m k).
Proof.
  intros Hm Hk w b w' H. unfold bind in H.
  destruct (m w) as [[a w1]|] eqn:E; [|discriminate].
  destruct (Hm w a w1 E) as [Hcb1 Hs1].
  destruct (Hk a w1 b w' H) as [Hcb2 Hs2].
  split; [congruence|]. intros p Hp. rewrite Hs2, Hs1 by exact Hp.
  reflexivity.
Qed.

Lemma fo_load sk : frame_on f S (load sk).
Proof.
  intros w a w' H. unfold load in H.
  destruct (tcp_sk w sk); [|discriminate]. injection H as _ <-. auto.
Qed.

Lemma fo_deref {A} (p : option A) : frame_on f S (deref p).
Proof.
  destruct p; [apply fo_ret|]. intros w a w' H. discriminate H.
Qed.

Lemma fo_subflows cb : frame_on f S (subflows cb).
Proof.
  intros w a w' H. unfold subflows in H.
  destruct (mpcbs w !! cb); [|discriminate]. injection H as _ <-. auto.
Qed.

Lemma fo_read_snd_buffer : frame_on f S read_snd_buffer.
Proof.
  intros w a w' H. unfold read_snd_buffer in H. injection H as _ <-. auto.
Qed.

Lemma fo_write_snd_buffer v : frame_on f S (write_snd_buffer v).
Proof.
  intros w a w' H. unfold write_snd_buffer in H. injection H as _ <-. auto.
Qed.

Lemma fo_modify sk g :
  S sk \/ (forall t, f (g t) = f t) -> frame_on f S (modify sk g).
Proof.
  intros Hg w a w' H. unfold modify in H.
  destruct (tcp_sk w sk) as [t|] eqn:E; [|discriminate].
  injection H as _ <-. split; [reflexivity|]. intros p Hp.
  rewrite tcp_sk_store. destruct (decide (sk = p)) as [<-|]; [|reflexivity].
  destruct Hg as [Hin|Hf]; [contradiction|].
  rewrite E. simpl. rewrite Hf. reflexivity.
Qed.

Lemma fo_sum_bandwidth subs t : frame_on f S (sum_bandwidth subs t).
Proof.
  intros w a w' H. apply sum_bandwidth_frame in H. subst w'. auto.
Qed.

End Frames.

Ltac frame_on_step :=
  first [ apply fo_ret | apply fo_load | apply fo_deref | apply fo_subflows
        | apply fo_read_snd_buffer | apply fo_write_snd_buffer
        | apply fo_sum_bandwidth
        | apply fo_bind; [|intros]
        | match goal with
          | |- frame_on _ _ (if ?c then _ else _) => destruct c
          | |- frame_on _ _ (match ?c with _ => _ end) => destruct c
          end ].

Section ModuleFrames.

Context {stack : tcp_stack}.
Context {X : Type} (f : tcp_sock -> X) (S : sock_ptr -> Prop).

(** The view [f] does not see the stored ratio. *)
Hypothesis ratio_unseen : forall v t, f (set_increase v t) = f t.

(** The calculator writes a stored ratio and nothing else. *)
Lemma fo_calc_increase_ratio sk factor :
  frame_on f S (mptcp_cmtrpv2_calc_increase_ratio sk factor).
Proof.
  unfold mptcp_cmtrpv2_calc_increase_ratio, mptcp_set_increase_ratio.
  repeat ((apply fo_modify; right; intros; apply ratio_unseen)
          || frame_on_step).
Qed.

Variable sk : sock_ptr.

(** Socket [sk] is set aside, or the view does not see the window and
    the pacing counter either. *)
Hypothesis window_unseen :
  S sk \/ ((forall v t, f (set_snd_cwnd v t) = f t)
           /\ (forall v t, f (set_snd_cwnd_cnt v t) = f t)).

Lemma fo_window_write g :
  (exists h, forall t, g t = set_snd_cwnd (h t) t)
  \/ (exists h, forall t, g t = set_snd_cwnd_cnt (h t) t) ->
  frame_on f S (modify sk g).
Proof.
  intros Hg. apply fo_modify.
  destruct window_unseen as [Hin|[Hc Hn]]; [left; exact Hin|right].
  intros t. destruct Hg as [[h Hh]|[h Hh]]; rewrite Hh; auto.
Qed.

Ltac window_write :=
  apply fo_window_write;
  first [ left; eexists (fun t => _); intros; reflexivity
        | right; eexists (fun t => _); intros; reflexivity ].

(** The slow-start engine writes the window of its subflow, a stored
    ratio and nothing else. *)
Lemma fo_slow_start acked :
  frame_on f S (mptcp_cmtrpv2_slow_start sk acked).
Proof.
  unfold mptcp_cmtrpv2_slow_start, mptcp_get_increase_ratio.
  repeat (apply fo_calc_increase_ratio || window_write || frame_on_step).
Qed.

(** The threshold operation writes the window of its socket and nothing
    else, in either mode. *)
Lemma fo_ssthresh : frame_on f S (mptcp_cmtrpv2_ssthresh sk).
Proof.
  unfold mptcp_cmtrpv2_ssthresh, mptcp_cmtrpv2_calc_ssthresh,
    mptcp_cmtrpv2_fast_rtx.
  repeat (window_write || frame_on_step).
Qed.

Lemma fo_cwnd_event event :
  frame_on f S (mptcp_cmtrpv2_cwnd_event sk event).
Proof.
  unfold mptcp_cmtrpv2_cwnd_event. repeat (window_write || frame_on_step).
Qed.

(** In multipath mode the dispatcher writes the window and the pacing
    counter of its subflow, a stored ratio and nothing else. *)
Lemma fo_cong_avoid w tp ack acked w' :
  tcp_sk w sk = Some tp -> mpc tp = true ->
  mptcp_cmtrpv2_cong_avoid sk ack acked w = Some (tt, w') ->
  mpcbs w' = mpcbs w
  /\ forall p, ~ S p ->
       option_map f (tcp_sk w' p) = option_map f (tcp_sk w p).
Proof.
  intros Hsk Hmpc Hrun. unfold mptcp_cmtrpv2_cong_avoid in Hrun.
  rewrite (run_bind _ _ _ _ _ (run_load _ _ _ Hsk)), Hmpc in Hrun.
  cbn [negb] in Hrun. revert Hrun.
  match goal with
  | |- ?m _ = _ -> _ => assert (Hfr : frame_on f S m)
  end.
  { unfold mptcp_get_increase_ratio.
    repeat (apply fo_calc_increase_ratio || apply fo_slow_start
            || window_write || frame_on_step). }
  intros Hrun. exact (Hfr _ _ _ Hrun).
Qed.

End ModuleFrames.

(** ** Window growth through the dispatcher *)

Section GrowthSteps.

Context {stack : tcp_stack}.

(** X7: a growth call on a multipath subflow never lowers the window and
    never raises it by more than one segment, whatever the ratio and the
    number of segments acknowledged (in slow start for a window below the
    largest [u32]). *)
Theorem X7_growth_moves_window_by_at_most_one
    w sk tp meta mtp subs ack acked :
  mp_subflow w sk tp meta mtp subs ->
  sock_in_range tp ->
  (snd_ssthresh tp < snd_cwnd tp \/ snd_cwnd tp < 2 ^ 32 - 1) ->
  exists w' tp',
    mptcp_cmtrpv2_cong_avoid sk ack acked w = Some (tt, w')
    /\ tcp_sk w' sk = Some tp'
    /\ (snd_cwnd tp' = snd_cwnd tp \/ snd_cwnd tp' = snd_cwnd tp + 1).
Proof.
  intros Hmp Hrg Hdom.
  destruct (sum_bandwidth_returns subs 0 w (mp_mapped _ _ _ _ _ _ Hmp))
    as (tb & Hsum).
  pose proof (mp_sock _ _ _ _ _ _ Hmp) as Hsk.
  pose proof (mp_mpc _ _ _ _ _ _ Hmp) as Hmpc.
  destruct Hrg as [[? ?] _ _ [? ?] _ _ _ _].
  destruct (cwnd_limited tp) eqn:Hlim.
  - destruct (Z_le_gt_dec (snd_cwnd tp) (snd_ssthresh tp)) as [Hle|Hgt].
    + destruct (slow_start_run w sk tp meta mtp subs tb acked Hmp Hsum)
        as (r & w' & tp' & Hrun & Hsk' & _ & _ & Hres).
      exists w', tp'. split.
      * rewrite (cong_avoid_slow_start w sk tp ack acked Hsk Hmpc Hlim Hle).
        rewrite (run_bind _ _ _ _ _ Hrun). reflexivity.
      * split; [exact Hsk'|].
        destruct (buffer_reaches _ _); destruct Hres as [Hc _]; rewrite Hc;
          [|auto].
        right. apply to_u32_id. unfold in_u32. lia.
    + destruct (cong_avoid_run w sk tp meta mtp subs tb ack acked
                  Hmp Hsum Hlim ltac:(lia))
        as (w' & tp' & Hrun & Hsk' & _ & Hres).
      exists w', tp'. split; [exact Hrun|]. split; [exact Hsk'|].
      destruct (snd_cwnd tp <=? snd_cwnd_cnt tp).
      * destruct (buffer_reaches _ _); destruct Hres as [Hc _]; rewrite Hc;
          [|auto].
        destruct (snd_cwnd tp <? snd_cwnd_clamp tp) eqn:E; [|auto].
        apply Z.ltb_lt in E. right. apply to_u32_id. unfold in_u32. lia.
      * destruct Hres as [Hc _]. auto.
  - exists w, tp. split; [|auto].
    eapply cong_avoid_not_limited; eassumption.
Qed.

(** X8: congestion avoidance keeps the window within the clamp: a call on
    a multipath subflow above its threshold whose window does not exceed
    [snd_cwnd_clamp] leaves a window that does not exceed it either. *)
Theorem X8_cong_avoid_respects_clamp w sk tp meta mtp subs ack acked :
  mp_subflow w sk tp meta mtp subs ->
  sock_in_range tp ->
  snd_ssthresh tp < snd_cwnd tp ->
  snd_cwnd tp <= snd_cwnd_clamp tp ->
  exists w' tp',
    mptcp_cmtrpv2_cong_avoid sk ack acked w = Some (tt, w')
    /\ tcp_sk w' sk = Some tp'
    /\ snd_cwnd tp' <= snd_cwnd_clamp tp'.
Proof.
  intros Hmp Hrg Hgt Hcl.
  destruct (sum_bandwidth_returns subs 0 w (mp_mapped _ _ _ _ _ _ Hmp))
    as (tb & Hsum).
  pose proof (mp_sock _ _ _ _ _ _ Hmp) as Hsk.
  pose proof (mp_mpc _ _ _ _ _ _ Hmp) as Hmpc.
  destruct Hrg as [[? ?] _ _ [? ?] _ _ _ _].
  destruct (cwnd_limited tp) eqn:Hlim.
  - destruct (cong_avoid_run w sk tp meta mtp subs tb ack acked
                Hmp Hsum Hlim Hgt)
      as (w' & tp' & Hrun & Hsk' & _ & Hres).
    assert (Hclamp : snd_cwnd_clamp tp' = snd_cwnd_clamp tp).
    { destruct (fo_cong_avoid static_part (fun _ => False)
                  (fun _ _ => eq_refl) sk
                  (or_intror (conj (fun _ _ => eq_refl) (fun _ _ => eq_refl)))
                  w tp ack acked w' Hsk Hmpc Hrun) as [_ Hst].
      specialize (Hst sk ltac:(tauto)). rewrite Hsk', Hsk in Hst.
      exact (f_equal (fun o => match o with
                               | Some t => snd_cwnd_clamp t
                               | None => 0
                               end) Hst). }
    exists w', tp'. split; [exact Hrun|]. split; [exact Hsk'|].
    rewrite Hclamp.
    destruct (snd_cwnd tp <=? snd_cwnd_cnt tp).
    + destruct (buffer_reaches _ _); destruct Hres as [Hc _]; rewrite Hc;
        [|lia].
      destruct (snd_cwnd tp <? snd_cwnd_clamp tp) eqn:E; [|lia].
      apply Z.ltb_lt in E. rewrite to_u32_id; [lia|]. unfold in_u32. lia.
    + destruct Hres as [Hc _]. lia.
  - exists w, tp. split; [|auto].
    eapply cong_avoid_not_limited; eassumption.
Qed.

End GrowthSteps.

(** A subflow in congestion avoidance, window 10: after the call the
    window is 10 or 11. *)
Lemma X7_window_10_to_10_or_11 :
  let m := subflow 0 0 10 20 800 in
  let s1 := subflow 0 0 10 5 800 in
  let w := one_conn 0 m s1 (subflow 0 0 10 20 1600) in
  exists w' tp',
    mptcp_cmtrpv2_cong_avoid 1 0 1 w = Some (tt, w')
    /\ tcp_sk w' 1%nat = Some tp'
    /\ (snd_cwnd tp' = 10 \/ snd_cwnd tp' = 11).
Proof.
  intros m s1 w.
  exact (X7_growth_moves_window_by_at_most_one w 1%nat s1 0%nat m
           [1%nat; 2%nat] 0 1
           ltac:(mp_subflow_by_eval) ltac:(sock_in_range_by_eval)
           ltac:(left; vm_compute; reflexivity)).
Defined.

(** A subflow one below its clamp of 11 with a full counter and enough
    credit grows to the clamp and not past it. *)
Lemma X8_window_grows_to_clamp_11 :
  let m := subflow 0 0 10 20 800 in
  let s1 := set_snd_cwnd_cnt 10 (clamped 11 (subflow 0 0 10 5 800)) in
  let w := one_conn 1459 m s1 (subflow 0 0 10 20 1600) in
  exists w' tp',
    mptcp_cmtrpv2_cong_avoid 1 0 1 w = Some (tt, w')
    /\ tcp_sk w' 1%nat = Some tp'
    /\ snd_cwnd tp' <= snd_cwnd_clamp tp'.
Proof.
  intros m s1 w.
  exact (X8_cong_avoid_respects_clamp w 1%nat s1 0%nat m
           [1%nat; 2%nat] 0 1
           ltac:(mp_subflow_by_eval) ltac:(sock_in_range_by_eval)
           ltac:(vm_compute; reflexivity) ltac:(vm_compute; discriminate)).
Defined.

Section GrowthLimits.

Context {stack : tcp_stack}.




End GrowthLimits.



Section FrameProperties.

Context {stack : tcp_stack}.

(** X11: no operation of the module assigns to a threshold, a clamp, a
    round-trip time, a segment size, a [sacked_out] count, a mode flag or a
    pointer of any socket, nor to a connection list: the threshold
    operation (which returns the new threshold and does not store it), the
    event handler, and the dispatcher on a socket in multipath mode leave
    all of these as they were, on every socket of the machine. *)
Theorem X11_module_writes_only_window_counter_and_ratio
    w sk tp ack acked event :
  tcp_sk w sk = Some tp ->
  (forall r w', mptcp_cmtrpv2_ssthresh sk w = Some (r, w') ->
                same_view static_part (fun _ => False) w w')
  /\ (forall w', mptcp_cmtrpv2_cwnd_event sk event w = Some (tt, w') ->
                 same_view static_part (fun _ => False) w w')
  /\ (mpc tp = true ->
      forall w', mptcp_cmtrpv2_cong_avoid sk ack acked w = Some (tt, w') ->
                 same_view static_part (fun _ => False) w w').
Proof.
  intros Hsk.
  assert (Hw : (fun _ : sock_ptr => False) sk
               \/ ((forall v t, static_part (set_snd_cwnd v t)
                                = static_part t)
                   /\ (forall v t, static_part (set_snd_cwnd_cnt v t)
                                   = static_part t)))
    by (right; split; reflexivity).
  split; [|split].
  - intros r w' Hrun.
    exact (fo_ssthresh static_part (fun _ => False) sk Hw _ _ _ Hrun).
  - intros w' Hrun.
    exact (fo_cwnd_event static_part (fun _ => False) sk Hw event _ _ _ Hrun).
  - intros Hmpc w' Hrun.
    exact (fo_cong_avoid static_part (fun _ => False) (fun _ _ => eq_refl)
             sk Hw w tp ack acked w' Hsk Hmpc Hrun).
Qed.

(** X12: an operation on socket [sk] changes the window and the pacing
    counter of no other socket: after the threshold operation, the event
    handler or the dispatcher in multipath mode, every socket other than
    [sk], of this connection or of another, has the window and the
    counter it had. *)
Theorem X12_window_of_other_sockets_untouched
    w sk tp ack acked event :
  tcp_sk w sk = Some tp ->
  (forall r w', mptcp_cmtrpv2_ssthresh sk w = Some (r, w') ->
                same_view window_part (eq sk) w w')
  /\ (forall w', mptcp_cmtrpv2_cwnd_event sk event w = Some (tt, w') ->
                 same_view window_part (eq sk) w w')
  /\ (mpc tp = true ->
      forall w', mptcp_cmtrpv2_cong_avoid sk ack acked w = Some (tt, w') ->
                 same_view window_part (eq sk) w w').
Proof.
  intros Hsk.
  assert (Hw : sk = sk
               \/ ((forall v t, window_part (set_snd_cwnd v t)
                                = window_part t)
                   /\ (forall v t, window_part (set_snd_cwnd_cnt v t)
                                   = window_part t)))
    by (left; reflexivity).
  split; [|split].
  - intros r w' Hrun.
    exact (fo_ssthresh window_part (eq sk) sk Hw _ _ _ Hrun).
  - intros w' Hrun.
    exact (fo_cwnd_event window_part (eq sk) sk Hw event _ _ _ Hrun).
  - intros Hmpc w' Hrun.
    exact (fo_cong_avoid window_part (eq sk) (fun _ _ => eq_refl)
             sk Hw w tp ack acked w' Hsk Hmpc Hrun).
Qed.

End FrameProperties.

(** A growth call that takes subflow 1 from window 10 to 11 leaves its
    threshold 20 and its clamp in place. *)
Lemma X11_growth_keeps_threshold_20 :
  let m := subflow 0 0 10 20 800 in
  let s1 := subflow 0 0 10 20 800 in
  let w := one_conn 1459 m s1 (subflow 0 0 10 20 1600) in
  exists w' tp',
    mptcp_cmtrpv2_cong_avoid 1 0 1 w = Some (tt, w')
    /\ tcp_sk w' 1%nat = Some tp'
    /\ snd_cwnd tp' = 11
    /\ snd_ssthresh tp' = 20 /\ snd_cwnd_clamp tp' = 4294967295.
Proof.
  intros m s1 w.
  destruct (mptcp_cmtrpv2_cong_avoid 1 0 1 w) as [[[] w']|] eqn:Hrun;
    [|vm_compute in Hrun; discriminate Hrun].
  destruct (X11_module_writes_only_window_counter_and_ratio w 1%nat s1
              0 1 CA_EVENT_LOSS ltac:(vm_compute; reflexivity))
    as (_ & _ & Hca).
  destruct (Hca eq_refl w' Hrun) as [_ Hst].
  specialize (Hst 1%nat ltac:(tauto)).
  vm_compute in Hrun. injection Hrun as <-.
  eexists _, _. split; [reflexivity|]. split; [vm_compute; reflexivity|].
  vm_compute. auto.
Defined.

(** The same call leaves subflow 2 with window 10 and counter 0. *)
Lemma X12_growth_on_1_leaves_2 :
  let m := subflow 0 0 10 20 800 in
  let s1 := subflow 0 0 10 20 800 in
  let w := one_conn 1459 m s1 (subflow 0 0 10 20 1600) in
  exists w',
    mptcp_cmtrpv2_cong_avoid 1 0 1 w = Some (tt, w')
    /\ option_map window_part (tcp_sk w' 2%nat) = Some (10, 0).
Proof.
  intros m s1 w.
  destruct (mptcp_cmtrpv2_cong_avoid 1 0 1 w) as [[[] w']|] eqn:Hrun;
    [|vm_compute in Hrun; discriminate Hrun].
  destruct (X12_window_of_other_sockets_untouched w 1%nat s1
              0 1 CA_EVENT_LOSS ltac:(vm_compute; reflexivity))
    as (_ & _ & Hca).
  destruct (Hca eq_refl w' Hrun) as [_ Hst].
  specialize (Hst 2%nat ltac:(discriminate)).
  exists w'. split; [reflexivity|]. rewrite Hst. vm_compute. reflexivity.
Defined.

(** ** Loss events and the threshold *)

Lemma subflows_mapped_store w a x subs :
  subflows_mapped w subs = true ->
  subflows_mapped (store_sock a x w) subs = true.
Proof.
  unfold subflows_mapped. rewrite !forallb_forall. intros H s Hs.
  specialize (H s Hs). rewrite tcp_sk_store.
  destruct (decide (a = s)); [reflexivity|exact H].
Qed.

(** Writing the window of a subflow keeps its connection well-formed. *)
Lemma mp_subflow_set_cwnd w sk tp meta mtp subs v :
  mp_subflow w sk tp meta mtp subs ->
  exists mtp',
    mp_subflow (store_sock sk (set_snd_cwnd v tp) w) sk (set_snd_cwnd v tp)
      meta mtp' subs
    /\ set_snd_cwnd 0 mtp' = set_snd_cwnd 0 mtp.
Proof.
  intros [Hsk Hmpc Hmeta Hmsk Hmm (cb & Hcb & Hmcb & Hsubs) Hmap].
  destruct (decide (sk = meta)) as [->|Hne].
  - assert (mtp = tp) by congruence. subst mtp.
    exists (set_snd_cwnd v tp). split; [|reflexivity].
    constructor; try assumption.
    + apply tcp_sk_store_eq.
    + apply tcp_sk_store_eq.
    + exists cb. auto.
    + apply subflows_mapped_store, Hmap.
  - exists mtp. split; [|reflexivity].
    constructor; try assumption.
    + apply tcp_sk_store_eq.
    + rewrite tcp_sk_store. destruct (decide (sk = meta)); congruence.
    + exists cb. auto.
    + apply subflows_mapped_store, Hmap.
Qed.

Section LossProperties.

Context {stack : tcp_stack}.

(** X13: a loss event sets the window of its socket to 1 and touches
    neither the accumulator nor any other socket; on a window-limited
    multipath subflow with a threshold of at least 1 the next ACK is
    therefore handled by the slow-start engine, and the window after it is
    1 or 2. *)
Theorem X13_loss_restarts_slow_start w sk tp meta mtp subs ack acked :
  mp_subflow w sk tp meta mtp subs ->
  cwnd_limited tp = true -> 1 <= snd_ssthresh tp ->
  let w1 := store_sock sk (set_snd_cwnd 1 tp) w in
  mptcp_cmtrpv2_cwnd_event sk CA_EVENT_LOSS w = Some (tt, w1)
  /\ mptcp_cmtrpv2_cong_avoid sk ack acked w1
     = (mptcp_cmtrpv2_slow_start sk acked ;;; ret tt) w1
  /\ exists w2 tp2,
       (mptcp_cmtrpv2_cwnd_event sk CA_EVENT_LOSS ;;;
        mptcp_cmtrpv2_cong_avoid sk ack acked) w = Some (tt, w2)
       /\ tcp_sk w2 sk = Some tp2
       /\ (snd_cwnd tp2 = 1 \/ snd_cwnd tp2 = 2).
Proof.
  intros Hmp Hlim Hss w1.
  pose proof (mp_sock _ _ _ _ _ _ Hmp) as Hsk.
  pose proof (mp_mpc _ _ _ _ _ _ Hmp) as Hmpc.
  assert (Hev : mptcp_cmtrpv2_cwnd_event sk CA_EVENT_LOSS w = Some (tt, w1))
    by (apply run_modify, Hsk).
  assert (Hsk1 : tcp_sk w1 sk = Some (set_snd_cwnd 1 tp))
    by apply tcp_sk_store_eq.
  assert (Hca : mptcp_cmtrpv2_cong_avoid sk ack acked w1
                = (mptcp_cmtrpv2_slow_start sk acked ;;; ret tt) w1).
  { apply (cong_avoid_slow_start w1 sk (set_snd_cwnd 1 tp));
      [exact Hsk1 | exact Hmpc | exact Hlim | exact Hss]. }
  split; [exact Hev|]. split; [exact Hca|].
  destruct (mp_subflow_set_cwnd w sk tp meta mtp subs 1 Hmp)
    as (mtp' & Hmp1 & _).
  fold w1 in Hmp1.
  destruct (sum_bandwidth_returns subs 0 w1 (mp_mapped _ _ _ _ _ _ Hmp1))
    as (tb & Hsum).
  destruct (slow_start_run w1 sk _ meta mtp' subs tb acked Hmp1 Hsum)
    as (r & w2 & tp2 & Hrun & Hsk2 & _ & _ & Hres).
  exists w2, tp2. split.
  - rewrite (run_bind _ _ _ _ _ Hev), Hca, (run_bind _ _ _ _ _ Hrun).
    reflexivity.
  - split; [exact Hsk2|].
    destruct (buffer_reaches _ _); destruct Hres as [Hc _]; rewrite Hc;
      [right|left]; reflexivity.
Qed.

(** X14: the threshold operation on a multipath subflow never raises the
    window: afterwards it is at least 1 and at most what it was, and with
    fewer than [dup_acks_rtx] (3) segments selectively acknowledged the
    whole machine is as before. *)
Theorem X14_ssthresh_never_raises_window w sk tp meta mtp subs :
  mp_subflow w sk tp meta mtp subs ->
  in_u32 (snd_cwnd tp) -> 1 <= snd_cwnd tp ->
  exists v w' tp',
    mptcp_cmtrpv2_ssthresh sk w = Some (v, w')
    /\ tcp_sk w' sk = Some tp'
    /\ 1 <= snd_cwnd tp' <= snd_cwnd tp
    /\ (sacked_out tp < dup_acks_rtx -> w' = w).
Proof.
  intros Hmp Hc Hpos.
  destruct (sum_bandwidth_returns subs 0 w (mp_mapped _ _ _ _ _ _ Hmp))
    as (tb & Hsum).
  rewrite (ssthresh_run w sk tp meta mtp subs tb Hmp Hsum).
  change (to_u32 dup_acks_rtx) with dup_acks_rtx.
  pose proof (new_ssthresh_of_bounds tp tb
                ltac:(unfold in_u32 in Hc; lia)) as Hb.
  destruct (dup_acks_rtx <=? sacked_out tp) eqn:E.
  - apply Z.leb_le in E. do 3 eexists. split; [reflexivity|].
    rewrite tcp_sk_store_eq. split; [reflexivity|]. simpl.
    split; [exact Hb|lia].
  - do 3 eexists. split; [reflexivity|].
    split; [exact (mp_sock _ _ _ _ _ _ Hmp)|]. split; [lia|auto].
Qed.

End LossProperties.

(** A subflow with window 10: after a loss and one ACK with accumulator
    1459 the window is 1 or 2. *)
Lemma X13_loss_then_ack :
  let m := subflow 0 0 10 20 800 in
  let s1 := subflow 0 0 10 20 800 in
  let w := one_conn 1459 m s1 (subflow 0 0 10 20 1600) in
  exists w2 tp2,
    (mptcp_cmtrpv2_cwnd_event 1 CA_EVENT_LOSS ;;;
     mptcp_cmtrpv2_cong_avoid 1 0 1) w = Some (tt, w2)
    /\ tcp_sk w2 1%nat = Some tp2
    /\ (snd_cwnd tp2 = 1 \/ snd_cwnd tp2 = 2).
Proof.
  intros m s1 w.
  exact (proj2 (proj2 (X13_loss_restarts_slow_start w 1%nat s1 0%nat m
                         [1%nat; 2%nat] 0 1
                         ltac:(mp_subflow_by_eval) eq_refl
                         ltac:(vm_compute; discriminate)))).
Defined.

(** Two segments selectively acknowledged: the threshold operation
    returns 3 and leaves the machine alone. *)
Lemma X14_two_sacked_no_snap :
  let m := subflow 0 0 10 20 800 in
  let s1 := sacked 2 (subflow 0 0 10 20 800) in
  let w := one_conn 0 m s1 (subflow 0 0 10 20 1600) in
  exists v, mptcp_cmtrpv2_ssthresh 1 w = Some (v, w).
Proof.
  intros m s1 w.
  destruct (X14_ssthresh_never_raises_window w 1%nat s1 0%nat m
              [1%nat; 2%nat]
              ltac:(mp_subflow_by_eval) ltac:(range_by_eval)
              ltac:(vm_compute; discriminate))
    as (v & w' & tp' & Hrun & _ & _ & Hsame).
  exists v. rewrite Hrun, (Hsame ltac:(vm_compute; reflexivity)).
  reflexivity.
Defined.

Lemma ceil_div_2 n : 0 <= n -> ceil_div n 2 = (n + 1) / 2.
Proof. intros _. unfold ceil_div. f_equal. lia. Qed.

(** Whatever the pooled bandwidth, the decrease is at least half the
    window, rounded up. *)
Lemma new_ssthresh_of_at_most_half tp tb :
  0 <= snd_cwnd tp < 2 ^ 32 - 1 ->
  new_ssthresh_of tp tb <= Z.max 1 (snd_cwnd tp / 2).
Proof.
  intros Hc. unfold new_ssthresh_of.
  set (d0 := DIV_ROUND_UP 64 _ 2).
  rewrite (DIV_ROUND_UP_ceil 32 (snd_cwnd tp) 2) by lia.
  rewrite ceil_div_2 by lia.
  set (d1 := (snd_cwnd tp + 1) / 2).
  assert (Hd1 : 2 * d1 <= snd_cwnd tp + 1 < 2 * d1 + 2).
  { unfold d1. pose proof (Z.div_mod (snd_cwnd tp + 1) 2 ltac:(lia)).
    pose proof (Z.mod_pos_bound (snd_cwnd tp + 1) 2 ltac:(lia)). lia. }
  assert (Hh : 2 * (snd_cwnd tp / 2) <= snd_cwnd tp < 2 * (snd_cwnd tp / 2) + 2).
  { pose proof (Z.div_mod (snd_cwnd tp) 2 ltac:(lia)).
    pose proof (Z.mod_pos_bound (snd_cwnd tp) 2 ltac:(lia)). lia. }
  set (d := if d0 <? d1 then d1 else d0).
  assert (Hd : d1 <= d).
  { unfold d. destruct (d0 <? d1) eqn:E; [lia|]. apply Z.ltb_ge in E. lia. }
  destruct (d <? snd_cwnd tp) eqn:E.
  - apply Z.ltb_lt in E. rewrite to_u32_id by (unfold in_u32; lia). lia.
  - lia.
Qed.

(** When the pooled window of the path does not exceed its own window,
    the threshold is half the window, rounded down, and at least 1. *)
Lemma new_ssthresh_of_half tp tb :
  0 <= snd_cwnd tp < 2 ^ 32 - 1 ->
  0 <= tb * srtt_us tp <= snd_cwnd tp * 2 ^ 32 ->
  new_ssthresh_of tp tb = Z.max 1 (snd_cwnd tp / 2).
Proof.
  intros Hc Hp. unfold new_ssthresh_of.
  rewrite (to_u64_id (tb * srtt_us tp)) by (unfold in_u64; lia).
  set (x := Z.shiftr (tb * srtt_us tp) rpv2_scale).
  assert (Hx : 0 <= x <= snd_cwnd tp).
  { unfold x, rpv2_scale. rewrite Z.shiftr_div_pow2 by lia. split.
    - apply Z.div_pos; lia.
    - apply Z.div_le_upper_bound; lia. }
  rewrite (DIV_ROUND_UP_ceil 64 x 2) by lia.
  rewrite (DIV_ROUND_UP_ceil 32 (snd_cwnd tp) 2) by lia.
  rewrite !ceil_div_2 by lia.
  set (d0 := (x + 1) / 2). set (d1 := (snd_cwnd tp + 1) / 2).
  assert (Hd0 : 2 * d0 <= x + 1 < 2 * d0 + 2).
  { unfold d0. pose proof (Z.div_mod (x + 1) 2 ltac:(lia)).
    pose proof (Z.mod_pos_bound (x + 1) 2 ltac:(lia)). lia. }
  assert (Hd1 : 2 * d1 <= snd_cwnd tp + 1 < 2 * d1 + 2).
  { unfold d1. pose proof (Z.div_mod (snd_cwnd tp + 1) 2 ltac:(lia)).
    pose proof (Z.mod_pos_bound (snd_cwnd tp + 1) 2 ltac:(lia)). lia. }
  assert (Hh : 2 * (snd_cwnd tp / 2) <= snd_cwnd tp < 2 * (snd_cwnd tp / 2) + 2).
  { pose proof (Z.div_mod (snd_cwnd tp) 2 ltac:(lia)).
    pose proof (Z.mod_pos_bound (snd_cwnd tp) 2 ltac:(lia)). lia. }
  replace (if d0 <? d1 then d1 else d0) with d1
    by (destruct (d0 <? d1) eqn:E; [reflexivity|apply Z.ltb_ge in E; lia]).
  destruct (d1 <? snd_cwnd tp) eqn:E.
  - apply Z.ltb_lt in E. rewrite to_u32_id by (unfold in_u32; lia). lia.
  - apply Z.ltb_ge in E. lia.
Qed.

Section HalvingProperties.

Context {stack : tcp_stack}.

(** X15: on a multipath subflow the threshold operation is at least as
    severe as a halving: for every window below the largest [u32] and
    whatever the other subflows contribute, the returned threshold is at
    most half the window, rounded down, or 1 when that is 0. *)
Theorem X15_threshold_at_most_half_window w sk tp meta mtp subs :
  mp_subflow w sk tp meta mtp subs ->
  0 <= snd_cwnd tp < 2 ^ 32 - 1 ->
  exists v w',
    mptcp_cmtrpv2_ssthresh sk w = Some (v, w')
    /\ v <= Z.max 1 (snd_cwnd tp / 2).
Proof.
  intros Hmp Hc.
  destruct (sum_bandwidth_returns subs 0 w (mp_mapped _ _ _ _ _ _ Hmp))
    as (tb & Hsum).
  rewrite (ssthresh_run w sk tp meta mtp subs tb Hmp Hsum).
  do 2 eexists. split; [reflexivity|].
  apply new_ssthresh_of_at_most_half, Hc.
Qed.

(** X16: when the connection list holds the calling subflow alone, the
    threshold is exactly half the window, rounded down, or 1 when that is
    0: the pooled term never exceeds the window's own half. *)
Theorem X16_lone_subflow_threshold_is_half w sk tp meta mtp :
  mp_subflow w sk tp meta mtp [sk] ->
  sock_in_range tp ->
  snd_cwnd tp < 2 ^ 32 - 1 ->
  exists w',
    mptcp_cmtrpv2_ssthresh sk w = Some (Z.max 1 (snd_cwnd tp / 2), w').
Proof.
  intros Hmp Hrg Hc.
  pose proof (mp_sock _ _ _ _ _ _ Hmp) as Hsk.
  assert (Hin : subflows_in_range w [sk]).
  { repeat constructor. exists tp. auto. }
  pose proof (sum_bandwidth_closed [sk] 0 w
                ltac:(unfold in_u64; lia) Hin) as Hsum.
  rewrite (ssthresh_run w sk tp meta mtp [sk] _ Hmp Hsum).
  eexists. f_equal. f_equal.
  destruct Hrg as [[? ?] _ _ _ [? ?] _ _ _].
  apply new_ssthresh_of_half; [lia|].
  simpl. rewrite Hsk. unfold bandwidth_estimate.
  destruct (sk_can_send tp && negb (srtt_us tp =? 0)) eqn:E.
  - apply andb_true_iff in E as [_ E]. apply negb_true_iff in E.
    apply Z.eqb_neq in E.
    assert (Hq : 0 <= snd_cwnd tp * 2 ^ 32 / srtt_us tp
                 /\ snd_cwnd tp * 2 ^ 32 / srtt_us tp * srtt_us tp
                    <= snd_cwnd tp * 2 ^ 32).
    { split.
      - apply Z.div_pos; lia.
      - rewrite Z.mul_comm. apply Z.mul_div_le. lia. }
    rewrite Z.add_0_l, Z.add_0_r, to_u64_id; [nia|].
    unfold in_u64. split; [lia|].
    apply Z.le_lt_trans with (snd_cwnd tp * 2 ^ 32); [|lia].
    apply Z.div_le_upper_bound; nia.
  - rewrite !Z.add_0_l. change (to_u64 0) with 0. lia.
Qed.

End HalvingProperties.

(** Window 3 next to a path with window 10: the threshold is 1. *)
Lemma X15_window_3_gives_1 :
  let m := subflow 0 0 10 20 800 in
  let s1 := subflow 0 0 3 20 800 in
  let w := one_conn 0 m s1 (subflow 0 0 10 20 1600) in
  exists v w', mptcp_cmtrpv2_ssthresh 1 w = Some (v, w') /\ v <= 1.
Proof.
  intros m s1 w.
  exact (X15_threshold_at_most_half_window w 1%nat s1 0%nat m
           [1%nat; 2%nat]
           ltac:(mp_subflow_by_eval) ltac:(range_by_eval)).
Defined.

(** A connection with the one subflow 11 of window 10: the threshold
    is 5. *)
Lemma X16_lone_window_10_gives_5 :
  let m := subflow 1 10 1 20 800 in
  let s := subflow 1 10 10 20 800 in
  let w := two_conns 0 (subflow 0 0 13 20 800)
             (subflow 0 0 10 20 800) (subflow 0 0 10 20 1600) m s in
  exists w', mptcp_cmtrpv2_ssthresh 11 w = Some (5, w').
Proof.
  intros m s w.
  exact (X16_lone_subflow_threshold_is_half w 11%nat s 10%nat m
           ltac:(mp_subflow_by_eval) ltac:(sock_in_range_by_eval)
           ltac:(vm_compute; reflexivity)).
Defined.

(** ** Sockets without a control block, and the stored ratio *)

Section EdgeProperties.

Context {stack : tcp_stack}.

(** X17: a socket in multipath mode whose control-block pointer is NULL
    is served without a fault: the calculator returns at once and stores
    nothing, and the threshold operation returns the single-path
    threshold, to which the window is still snapped when [sacked_out] has
    reached [dup_acks_rtx]. *)
Theorem X17_no_control_block_falls_back w sk tp factor :
  tcp_sk w sk = Some tp -> mpc tp = true -> mpcb tp = None ->
  mptcp_cmtrpv2_calc_increase_ratio sk factor w = Some (tt, w)
  /\ mptcp_cmtrpv2_ssthresh sk w
     = Some (tcp_reno_ssthresh tp,
             if dup_acks_rtx <=? sacked_out tp
             then store_sock sk (set_snd_cwnd (tcp_reno_ssthresh tp) tp) w
             else w).
Proof.
  intros Hsk Hmpc Hcb. split.
  - unfold mptcp_cmtrpv2_calc_increase_ratio.
    rewrite (run_bind _ _ _ _ _ (run_load _ _ _ Hsk)), Hcb. reflexivity.
  - unfold mptcp_cmtrpv2_ssthresh.
    rewrite (run_bind _ _ _ _ _ (run_load _ _ _ Hsk)), Hmpc. cbn [negb].
    assert (Hcalc : mptcp_cmtrpv2_calc_ssthresh sk w
                    = Some (tcp_reno_ssthresh tp, w)).
    { unfold mptcp_cmtrpv2_calc_ssthresh.
      rewrite (run_bind _ _ _ _ _ (run_load _ _ _ Hsk)), Hcb. reflexivity. }
    rewrite (run_bind _ _ _ _ _ Hcalc).
    rewrite (run_bind _ _ _ _ _ (fast_rtx_run _ _ _ _ Hsk)). reflexivity.
Qed.

End EdgeProperties.

(** A socket in multipath mode with no control block and three segments
    selectively acknowledged: the threshold is the single-path one and the
    window is set to it. *)
Lemma X17_orphan_socket_snaps_to_reno :
  let tp := mk_tcp_sock 10 20 0 4294967295 800 1460 3 true None None 0
              true true in
  let w := mk_world 0 (<[5%nat := tp]> ∅) ∅ in
  mptcp_cmtrpv2_ssthresh 5 w
  = Some (tcp_reno_ssthresh tp,
          store_sock 5 (set_snd_cwnd (tcp_reno_ssthresh tp) tp) w).
Proof.
  intros tp w.
  exact (proj2 (X17_no_control_block_falls_back w 5%nat tp 1460
                  ltac:(vm_compute; reflexivity) eq_refl eq_refl)).
Defined.



(** ** Credit and pacing *)

Section CreditProperties.

Context {stack : tcp_stack}.

(** X19: as long as the accumulator does not overflow, a growth call
    below the limits loses no credit: the accumulator after the call plus
    one [mss] for the segment the window gained, if it gained one, equals
    the accumulator before the call plus the ratio.  This holds in slow
    start for a window below the largest [u32] and in congestion avoidance
    for a window below the clamp. *)
Theorem X19_growth_conserves_credit w sk tp meta mtp subs tb ack acked :
  mp_subflow w sk tp meta mtp subs ->
  sum_bandwidth subs 0 w = Some (tb, w) ->
  sock_in_range tp ->
  cwnd_limited tp = true ->
  let slow := snd_cwnd tp <=? snd_ssthresh tp in
  let inc :=
    if slow
    then ratio_used (increase mtp) mtp (slow_start_factor tp acked) tb
    else ratio_used (increase mtp) tp (mss_cache tp) tb in
  let acc := snd_buffer w + inc in
  0 <= acc < 2 ^ 31 ->
  (if slow then snd_cwnd tp < 2 ^ 32 - 1
   else snd_cwnd tp < snd_cwnd_clamp tp) ->
  exists w' tp',
    mptcp_cmtrpv2_cong_avoid sk ack acked w = Some (tt, w')
    /\ tcp_sk w' sk = Some tp'
    /\ snd_buffer w' + mss_cache tp * (snd_cwnd tp' - snd_cwnd tp) = acc.
Proof.
  intros Hmp Hsum Hrg Hlim.
  pose proof (mp_sock _ _ _ _ _ _ Hmp) as Hsk.
  pose proof (mp_mpc _ _ _ _ _ _ Hmp) as Hmpc.
  destruct Hrg as [[? ?] _ _ [? ?] _ [? ?] _ _].
  destruct (snd_cwnd tp <=? snd_ssthresh tp) eqn:Hleb;
    intros slow inc acc Hacc Hdom; subst slow; cbv iota in Hdom.
  - apply Z.leb_le in Hleb.
    destruct (slow_start_run w sk tp meta mtp subs tb acked Hmp Hsum)
      as (r & w' & tp' & Hrun & Hsk' & _ & _ & Hres).
    fold inc in Hres.
    rewrite buffer_add_exact in Hres by (unfold in_s32; fold acc; lia).
    fold acc in Hres. rewrite buffer_reaches_nonneg in Hres by lia.
    exists w', tp'. split.
    + rewrite (cong_avoid_slow_start w sk tp ack acked Hsk Hmpc Hlim Hleb).
      rewrite (run_bind _ _ _ _ _ Hrun). reflexivity.
    + split; [exact Hsk'|].
      destruct (mss_cache tp <=? acc) eqn:E; destruct Hres as [Hc Hb];
        rewrite Hc, Hb; [|lia].
      apply Z.leb_le in E.
      rewrite to_u32_id by (unfold in_u32; lia).
      rewrite buffer_sub_exact by lia. lia.
  - apply Z.leb_gt in Hleb.
    destruct (cong_avoid_run w sk tp meta mtp subs tb ack acked
                Hmp Hsum Hlim Hleb)
      as (w' & tp' & Hrun & Hsk' & _ & Hres).
    fold inc in Hres.
    rewrite buffer_add_exact in Hres by (unfold in_s32; fold acc; lia).
    fold acc in Hres. rewrite buffer_reaches_nonneg in Hres by lia.
    exists w', tp'. split; [exact Hrun|]. split; [exact Hsk'|].
    destruct (snd_cwnd tp <=? snd_cwnd_cnt tp).
    + destruct (mss_cache tp <=? acc) eqn:E.
      * apply Z.leb_le in E. destruct Hres as (Hc & _ & Hb).
        apply Z.ltb_lt in Hdom. rewrite Hdom in Hc. rewrite Hc, Hb.
        rewrite to_u32_id by (unfold in_u32; lia).
        rewrite buffer_sub_exact by lia. lia.
      * destruct Hres as (Hc & _ & Hb). rewrite Hc, Hb. lia.
    + destruct Hres as (Hc & _ & Hb). rewrite Hc, Hb. lia.
Qed.

End CreditProperties.

(** Accumulator 1459 and ratio 1043 in slow start: the window gains a
    segment and 1042 + 1460 = 2502 is what was there. *)
Lemma X19_credit_2502_accounted :
  let m := subflow 0 0 10 20 800 in
  let s1 := subflow 0 0 10 20 800 in
  let w := one_conn 1459 m s1 (subflow 0 0 10 20 1600) in
  exists w' tp',
    mptcp_cmtrpv2_cong_avoid 1 0 1 w = Some (tt, w')
    /\ tcp_sk w' 1%nat = Some tp'
    /\ snd_buffer w' + 1460 * (snd_cwnd tp' - 10) = 2502.
Proof.
  intros m s1 w.
  exact (X19_growth_conserves_credit w 1%nat s1 0%nat m
           [1%nat; 2%nat] 80530636 0 1
           ltac:(mp_subflow_by_eval) ltac:(vm_compute; reflexivity)
           ltac:(sock_in_range_by_eval) eq_refl
           ltac:(range_by_eval) ltac:(vm_compute; reflexivity)).
Defined.

Lemma same_static_lookup w w' p t :
  option_map static_part (tcp_sk w' p) = option_map static_part (tcp_sk w p) ->
  tcp_sk w p = Some t ->
  exists t', tcp_sk w' p = Some t' /\ static_part t' = static_part t.
Proof.
  intros H E. rewrite E in H.
  destruct (tcp_sk w' p) as [t'|]; [|discriminate H].
  exists t'. split; [reflexivity|].
  exact (f_equal (fun o => match o with
                           | Some x => x
                           | None => static_part t
                           end) H).
Qed.

(** A machine that differs from a well-formed one in windows, counters
    and ratios only is well-formed. *)
Lemma mp_subflow_same_view w w' sk tp tp' meta mtp subs :
  mp_subflow w sk tp meta mtp subs ->
  same_view static_part (fun _ => False) w w' ->
  tcp_sk w' sk = Some tp' ->
  static_part tp' = static_part tp
  /\ exists mtp', mp_subflow w' sk tp' meta mtp' subs.
Proof.
  intros [Hsk Hmpc Hmeta Hmsk Hmm (cb & Hcb & Hmcb & Hsubs) Hmap]
         [Hlists Hv] Hsk'.
  assert (Hany : forall p, option_map static_part (tcp_sk w' p)
                           = option_map static_part (tcp_sk w p))
    by (intros p; apply Hv; tauto).
  destruct (same_static_lookup w w' sk tp (Hany sk) Hsk) as (t & Ht & Hst).
  assert (t = tp') by congruence. subst t.
  destruct (same_static_lookup w w' meta mtp (Hany meta) Hmsk)
    as (mtp' & Hm' & Hmst).
  split; [exact Hst|]. exists mtp'.
  pose proof (f_equal mpc Hst) as E1. pose proof (f_equal meta_sk Hst) as E2.
  pose proof (f_equal mpcb Hst) as E3.
  pose proof (f_equal meta_sk Hmst) as E4.
  pose proof (f_equal mpcb Hmst) as E5. simpl in *.
  constructor; try congruence.
  - exists cb. repeat split; congruence.
  - unfold subflows_mapped in *. rewrite forallb_forall in *.
    intros s Hs. specialize (Hmap s Hs).
    destruct (tcp_sk w s) as [ts|] eqn:Es; [|discriminate].
    destruct (same_static_lookup w w' s ts (Hany s) Es) as (ts' & -> & _).
    reflexivity.
Qed.

Section Pacing.

Context {stack : tcp_stack}.

(** One congestion-avoidance call, as far as window and counter go, with
    the connection still well-formed afterwards. *)
Lemma cong_avoid_step w sk tp meta mtp subs ack acked :
  mp_subflow w sk tp meta mtp subs ->
  cwnd_limited tp = true -> snd_ssthresh tp < snd_cwnd tp ->
  exists w' tp' mtp',
    mptcp_cmtrpv2_cong_avoid sk ack acked w = Some (tt, w')
    /\ mp_subflow w' sk tp' meta mtp' subs
    /\ static_part tp' = static_part tp
    /\ if snd_cwnd tp <=? snd_cwnd_cnt tp
       then (snd_cwnd tp' = snd_cwnd tp
             /\ snd_cwnd_cnt tp' = snd_cwnd_cnt tp)
            \/ (snd_cwnd tp'
                = (if snd_cwnd tp <? snd_cwnd_clamp tp
                   then to_u32 (snd_cwnd tp + 1) else snd_cwnd tp)
                /\ snd_cwnd_cnt tp' = 0)
       else snd_cwnd tp' = snd_cwnd tp
            /\ snd_cwnd_cnt tp' = to_u32 (snd_cwnd_cnt tp + 1).
Proof.
  intros Hmp Hlim Hgt.
  destruct (sum_bandwidth_returns subs 0 w (mp_mapped _ _ _ _ _ _ Hmp))
    as (tb & Hsum).
  destruct (cong_avoid_run w sk tp meta mtp subs tb ack acked
              Hmp Hsum Hlim Hgt) as (w' & tp' & Hrun & Hsk' & _ & Hres).
  pose proof (fo_cong_avoid static_part (fun _ => False)
                (fun _ _ => eq_refl) sk
                (or_intror (conj (fun _ _ => eq_refl) (fun _ _ => eq_refl)))
                w tp ack acked w' (mp_sock _ _ _ _ _ _ Hmp)
                (mp_mpc _ _ _ _ _ _ Hmp) Hrun) as Hview.
  destruct (mp_subflow_same_view w w' sk tp tp' meta mtp subs
              Hmp Hview Hsk') as (Hst & mtp' & Hmp').
  exists w', tp', mtp'. repeat (split; [assumption|]).
  destruct (snd_cwnd tp <=? snd_cwnd_cnt tp).
  - destruct (buffer_reaches _ _); [right|left]; tauto.
  - tauto.
Qed.

(** While the counter is short of the window, calls only count. *)
Lemma calls_count_up sk meta subs ack acked (n : nat) :
  forall w tp mtp,
    mp_subflow w sk tp meta mtp subs ->
    cwnd_limited tp = true -> snd_ssthresh tp < snd_cwnd tp ->
    snd_cwnd tp < 2 ^ 32 -> 0 <= snd_cwnd_cnt tp ->
    snd_cwnd_cnt tp + Z.of_nat n <= snd_cwnd tp ->
    exists w' tp' mtp',
      calls n (mptcp_cmtrpv2_cong_avoid sk ack acked) w = Some (tt, w')
      /\ mp_subflow w' sk tp' meta mtp' subs
      /\ static_part tp' = static_part tp
      /\ snd_cwnd tp' = snd_cwnd tp
      /\ snd_cwnd_cnt tp' = snd_cwnd_cnt tp + Z.of_nat n.
Proof.
  induction n as [|n IH]; intros w tp mtp Hmp Hlim Hgt Hc Hn Hle.
  - exists w, tp, mtp. simpl. rewrite Z.add_0_r. auto.
  - destruct (cong_avoid_step w sk tp meta mtp subs ack acked Hmp Hlim Hgt)
      as (w1 & tp1 & mtp1 & Hrun & Hmp1 & Hst & Hres).
    replace (snd_cwnd tp <=? snd_cwnd_cnt tp) with false in Hres
      by (symmetry; apply Z.leb_gt; lia).
    destruct Hres as [Hc1 Hn1].
    rewrite to_u32_id in Hn1 by (unfold in_u32; lia).
    pose proof (f_equal cwnd_limited Hst) as El.
    pose proof (f_equal snd_ssthresh Hst) as Es. simpl in El, Es.
    destruct (IH w1 tp1 mtp1 Hmp1 ltac:(congruence) ltac:(lia) ltac:(lia)
                ltac:(lia) ltac:(lia))
      as (w' & tp' & mtp' & Hruns & Hmp' & Hst' & Hc' & Hn').
    exists w', tp', mtp'. split.
    + simpl. rewrite (run_bind _ _ _ _ _ Hrun). exact Hruns.
    + split; [exact Hmp'|]. split; [congruence|]. split; lia.
Qed.

(** X20: in congestion avoidance, while the pacing counter is short of
    the window, calls only count: [n] consecutive calls on a
    window-limited multipath subflow with [cwnd_cnt + n <= cwnd] leave
    the window as it is and the counter at [cwnd_cnt + n], whatever the
    accumulator holds. *)
Theorem X20_calls_below_window_only_count
    w sk tp meta mtp subs ack acked (n : nat) :
  mp_subflow w sk tp meta mtp subs ->
  sock_in_range tp ->
  cwnd_limited tp = true -> snd_ssthresh tp < snd_cwnd tp ->
  snd_cwnd_cnt tp + Z.of_nat n <= snd_cwnd tp ->
  exists w' tp',
    calls n (mptcp_cmtrpv2_cong_avoid sk ack acked) w = Some (tt, w')
    /\ tcp_sk w' sk = Some tp'
    /\ snd_cwnd tp' = snd_cwnd tp
    /\ snd_cwnd_cnt tp' = snd_cwnd_cnt tp + Z.of_nat n.
Proof.
  intros Hmp Hrg Hlim Hgt Hle.
  destruct Hrg as [[? ?] _ [? ?] _ _ _ _ _].
  destruct (calls_count_up sk meta subs ack acked n w tp mtp
              Hmp Hlim Hgt ltac:(lia) ltac:(lia) Hle)
    as (w' & tp' & mtp' & Hrun & Hmp' & _ & Hc & Hn).
  exists w', tp'. split; [exact Hrun|].
  split; [exact (mp_sock _ _ _ _ _ _ Hmp')|]. auto.
Qed.

(** Over at most [cwnd] calls the window grows at most once. *)
Lemma calls_grow_once sk meta subs ack acked (n : nat) :
  forall w tp mtp,
    mp_subflow w sk tp meta mtp subs ->
    cwnd_limited tp = true -> snd_ssthresh tp < snd_cwnd tp ->
    0 <= snd_cwnd tp -> snd_cwnd_clamp tp < 2 ^ 32 ->
    Z.of_nat n <= snd_cwnd tp ->
    exists w' tp',
      calls n (mptcp_cmtrpv2_cong_avoid sk ack acked) w = Some (tt, w')
      /\ tcp_sk w' sk = Some tp'
      /\ snd_cwnd tp <= snd_cwnd tp' <= snd_cwnd tp + 1.
Proof.
  induction n as [|n IH]; intros w tp mtp Hmp Hlim Hgt Hc Hcl Hle.
  - exists w, tp. simpl. split; [reflexivity|].
    split; [exact (mp_sock _ _ _ _ _ _ Hmp)|lia].
  - destruct (cong_avoid_step w sk tp meta mtp subs ack acked Hmp Hlim Hgt)
      as (w1 & tp1 & mtp1 & Hrun & Hmp1 & Hst & Hres).
    pose proof (f_equal cwnd_limited Hst) as El.
    pose proof (f_equal snd_ssthresh Hst) as Es.
    pose proof (f_equal snd_cwnd_clamp Hst) as Ec. simpl in El, Es, Ec.
    assert (Hsame : snd_cwnd tp1 = snd_cwnd tp ->
                    exists w' tp',
                      calls (S n) (mptcp_cmtrpv2_cong_avoid sk ack acked) w
                      = Some (tt, w')
                      /\ tcp_sk w' sk = Some tp'
                      /\ snd_cwnd tp <= snd_cwnd tp' <= snd_cwnd tp + 1).
    { intros E.
      destruct (IH w1 tp1 mtp1 Hmp1 ltac:(congruence) ltac:(lia) ltac:(lia)
                  ltac:(lia) ltac:(lia))
        as (w' & tp' & Hruns & Hsk' & Hb).
      exists w', tp'. split.
      - simpl. rewrite (run_bind _ _ _ _ _ Hrun). exact Hruns.
      - split; [exact Hsk'|lia]. }
    destruct (snd_cwnd tp <=? snd_cwnd_cnt tp).
    + destruct Hres as [[Hc1 _]|[Hc1 Hn1]]; [exact (Hsame Hc1)|].
      destruct (snd_cwnd tp <? snd_cwnd_clamp tp) eqn:E;
        [|exact (Hsame Hc1)].
      apply Z.ltb_lt in E.
      rewrite to_u32_id in Hc1 by (unfold in_u32; lia).
      destruct (calls_count_up sk meta subs ack acked n w1 tp1 mtp1
                  Hmp1 ltac:(congruence) ltac:(lia) ltac:(lia) ltac:(lia)
                  ltac:(lia))
        as (w' & tp' & mtp' & Hruns & Hmp' & _ & Hc' & _).
      exists w', tp'. split.
      * simpl. rewrite (run_bind _ _ _ _ _ Hrun). exact Hruns.
      * split; [exact (mp_sock _ _ _ _ _ _ Hmp')|lia].
    + destruct Hres as [Hc1 _]. exact (Hsame Hc1).
Qed.

(** X21: congestion avoidance grows the window by at most one segment per
    window's worth of calls: after [n <= cwnd] consecutive calls on a
    window-limited multipath subflow above its threshold the window is
    what it was or one segment more, however much credit the accumulator
    holds. *)
Theorem X21_one_segment_per_window_of_calls
    w sk tp meta mtp subs ack acked (n : nat) :
  mp_subflow w sk tp meta mtp subs ->
  sock_in_range tp ->
  cwnd_limited tp = true -> snd_ssthresh tp < snd_cwnd tp ->
  Z.of_nat n <= snd_cwnd tp ->
  exists w' tp',
    calls n (mptcp_cmtrpv2_cong_avoid sk ack acked) w = Some (tt, w')
    /\ tcp_sk w' sk = Some tp'
    /\ snd_cwnd tp <= snd_cwnd tp' <= snd_cwnd tp + 1.
Proof.
  intros Hmp Hrg Hlim Hgt Hle.
  destruct Hrg as [[? ?] _ _ [? ?] _ _ _ _].
  exact (calls_grow_once sk meta subs ack acked n w tp mtp
           Hmp Hlim Hgt ltac:(lia) ltac:(lia) Hle).
Qed.

End Pacing.

(** Window 10, counter 3: five calls take the counter to 8. *)
Lemma X20_five_calls_count_to_8 :
  let m := subflow 0 0 10 20 800 in
  let s1 := set_snd_cwnd_cnt 3 (subflow 0 0 10 5 800) in
  let w := one_conn 0 m s1 (subflow 0 0 10 20 1600) in
  exists w' tp',
    calls 5 (mptcp_cmtrpv2_cong_avoid 1 0 1) w = Some (tt, w')
    /\ tcp_sk w' 1%nat = Some tp'
    /\ snd_cwnd tp' = 10 /\ snd_cwnd_cnt tp' = 8.
Proof.
  intros m s1 w.
  exact (X20_calls_below_window_only_count w 1%nat s1 0%nat m
           [1%nat; 2%nat] 0 1 5
           ltac:(mp_subflow_by_eval) ltac:(sock_in_range_by_eval) eq_refl
           ltac:(vm_compute; reflexivity) ltac:(vm_compute; discriminate)).
Defined.

(** Window 10 with a full counter: ten calls, each adding a ratio of
    1043, leave the window at 10 or 11. *)
Lemma X21_ten_calls_at_most_11 :
  let m := subflow 0 0 10 20 800 in
  let s1 := set_snd_cwnd_cnt 10 (subflow 0 0 10 5 800) in
  let w := one_conn 1459 m s1 (subflow 0 0 10 20 1600) in
  exists w' tp',
    calls 10 (mptcp_cmtrpv2_cong_avoid 1 0 1) w = Some (tt, w')
    /\ tcp_sk w' 1%nat = Some tp'
    /\ 10 <= snd_cwnd tp' <= 11.
Proof.
  intros m s1 w.
  exact (X21_one_segment_per_window_of_calls w 1%nat s1 0%nat m
           [1%nat; 2%nat] 0 1 10
           ltac:(mp_subflow_by_eval) ltac:(sock_in_range_by_eval) eq_refl
           ltac:(vm_compute; reflexivity) ltac:(vm_compute; discriminate)).
Defined.

(** The pooled window of a subflow alone on its list does not exceed its
    own window. *)
Lemma lone_pooled_window w sk tp :
  tcp_sk w sk = Some tp -> sock_in_range tp ->
  let tb := to_u64 (0 + pooled_bandwidth w [sk]) in
  0 <= tb /\ 0 <= srtt_us tp * tb <= snd_cwnd tp * 2 ^ 32.
Proof.
  intros Hsk Hrg. simpl. rewrite Hsk. unfold bandwidth_estimate.
  destruct Hrg as [[? ?] _ _ _ [? ?] _ _ _].
  destruct (sk_can_send tp && negb (srtt_us tp =? 0)) eqn:E.
  - apply andb_true_iff in E as [_ E]. apply negb_true_iff in E.
    apply Z.eqb_neq in E.
    assert (Hq : 0 <= snd_cwnd tp * 2 ^ 32 / srtt_us tp
                 /\ srtt_us tp * (snd_cwnd tp * 2 ^ 32 / srtt_us tp)
                    <= snd_cwnd tp * 2 ^ 32).
    { split.
      - apply Z.div_pos; lia.
      - apply Z.mul_div_le. lia. }
    rewrite Z.add_0_l, Z.add_0_r, to_u64_id; [nia|].
    unfold in_u64. split; [lia|].
    apply Z.le_lt_trans with (snd_cwnd tp * 2 ^ 32); [|lia].
    apply Z.div_le_upper_bound; nia.
  - rewrite !Z.add_0_l. change (to_u64 0) with 0. lia.
Qed.

(** X22: for a subflow alone on its connection list, with a window of at
    least 1 and [cwnd * factor] within 32 bits, the calculator stores a
    ratio of at least [factor]: a lone path earns no less than the full
    reward per call. *)
Theorem X22_lone_subflow_ratio_at_least_factor w sk tp meta mtp factor :
  mp_subflow w sk tp meta mtp [sk] ->
  sock_in_range tp ->
  1 <= snd_cwnd tp -> 0 < factor -> snd_cwnd tp * factor < 2 ^ 32 ->
  exists w' mtp',
    mptcp_cmtrpv2_calc_increase_ratio sk factor w = Some (tt, w')
    /\ tcp_sk w' meta = Some mtp'
    /\ factor <= increase mtp'.
Proof.
  intros [Hsk Hmpc Hmeta Hmsk Hmm (cb & Hcb & Hmcb & Hsubs) Hmap]
         Hrg Hc Hf Hn.
  assert (Hin : subflows_in_range w [sk]).
  { repeat constructor. exists tp. auto. }
  pose proof (sum_bandwidth_closed [sk] 0 w
                ltac:(unfold in_u64; lia) Hin) as Hsum.
  destruct (lone_pooled_window w sk tp Hsk Hrg) as [Htb Hp].
  destruct Hrg as [[? ?] _ _ _ _ _ _ _].
  set (tb := to_u64 (0 + pooled_bandwidth w [sk])) in *.
  rewrite (calc_increase_ratio_run w sk tp cb [sk] tb meta mtp factor)
    by (try assumption; lia).
  do 2 eexists. split; [reflexivity|].
  rewrite tcp_sk_store_eq. split; [reflexivity|]. simpl.
  unfold increase_of.
  rewrite (to_u64_id (srtt_us tp * tb)) by (unfold in_u64; lia).
  rewrite (to_u32_id (snd_cwnd tp * factor)) by (unfold in_u32; lia).
  set (x := Z.shiftr (srtt_us tp * tb) rpv2_scale).
  assert (Hx : 0 <= x <= snd_cwnd tp).
  { unfold x, rpv2_scale. rewrite Z.shiftr_div_pow2 by lia. split.
    - apply Z.div_pos; lia.
    - apply Z.div_le_upper_bound; lia. }
  set (d := if x =? 0 then 1 else x).
  assert (Hd : 1 <= d <= snd_cwnd tp).
  { unfold d. destruct (x =? 0) eqn:E; [lia|]. apply Z.eqb_neq in E. lia. }
  rewrite DIV_ROUND_UP_ceil by lia. unfold ceil_div.
  apply Z.div_le_lower_bound; [lia|]. nia.
Qed.

(** Subflow 11 alone with window 10 and factor 1460: the ratio stored in
    meta socket 10 is at least 1460. *)
Lemma X22_lone_window_10_earns_1460 :
  let m := subflow 1 10 1 20 800 in
  let s := subflow 1 10 10 5 800 in
  let w := two_conns 0 (subflow 0 0 13 20 800)
             (subflow 0 0 10 20 800) (subflow 0 0 10 20 1600) m s in
  exists w' mtp',
    mptcp_cmtrpv2_calc_increase_ratio 11 1460 w = Some (tt, w')
    /\ tcp_sk w' 10%nat = Some mtp'
    /\ 1460 <= increase mtp'.
Proof.
  intros m s w.
  exact (X22_lone_subflow_ratio_at_least_factor w 11%nat s 10%nat m 1460
           ltac:(mp_subflow_by_eval) ltac:(sock_in_range_by_eval)
           ltac:(vm_compute; discriminate) ltac:(vm_compute; reflexivity)
           ltac:(vm_compute; reflexivity)).
Defined.
